(** * smbus: the SMBus transport over the Linux i2c-dev ioctl interface

    A shallow embedding of package [smbus] (type [Conn], its constructors
    [Open] and [OpenFile], and its register operations) together with the
    properties of the transport that the design document states, and of
    the integer code of the sensor drivers built on it (sht3x, adc101c,
    tsl2591, bme280, at30tse75x, hts221).

    The operating system is an interface ([Kernel]); the Go code runs in a
    state monad over a world made of the kernel state, the Go heap and the
    log of every system call that was issued.  Floating point is left
    uninterpreted ([Float64]), and waiting ([time.Sleep]) has no
    counterpart.  The raw [Read], [Write] and [WriteByte] of [Conn], which
    go through the file rather than through ioctl, are not part of the
    model. *)

From Stdlib Require Import ZArith Lia String Strings.Byte DecimalString.
From Stdlib Require Import DecimalPos DecimalZ.
From stdpp Require Import base list gmap.

Local Open Scope Z_scope.

(** ** Constants of the package *)

Definition i2cSlave : Z := 0x0703.
Definition i2cSlaveForce : Z := 0x0706.
Definition i2cFuncs : Z := 0x0705.
Definition i2cSMBus : Z := 0x0720.

Definition i2cSMBusWrite : byte := x00.
Definition i2cSMBusRead : byte := x01.

Definition i2cSMBusByteData : Z := 2.
Definition i2cSMBusWordData : Z := 3.
Definition i2cSMBusBlockData : Z := 5.
Definition i2cSMBusI2CBlockData : Z := 8.
Definition i2cSMBusBlockMax : Z := 32.

(** [os.O_RDWR] and the permission bits [0600] handed to [os.OpenFile]. *)
Definition O_RDWR : Z := 2.
Definition perm0600 : Z := 384.

(** ** Go values *)

(** Go's [error] interface value: [None] is [nil]. *)
Inductive error : Type :=
| errSMBusBlockDataMax
| Errno (e : Z)
| PathError (op path : string) (e : Z).

(** Conversions between [uint8] and the integer types. *)
Definition int_of_byte (b : byte) : Z := Z.of_N (Byte.to_N b).

Definition byte_of_int (z : Z) : byte :=
  match Byte.of_N (Z.to_N (z mod 256)) with
  | Some b => b
  | None => x00
  end.

(** Memory is a list of allocations, each a list of bytes; a location is
    the index of its allocation.  Allocation appends. *)
Abbreviation loc := nat (only parsing).
Abbreviation heap_t := (list (list byte)) (only parsing).

Record pointer : Type := Pointer { pbase : loc; poff : nat }.

(** A slice header: backing allocation, offset of the first element,
    length, and the room left after the last element; the capacity is
    their sum, so that every header has [len <= cap] as in Go. *)
Record slice : Type := Slice { base : loc; off : nat; slen : nat; sroom : nat }.

Definition scap (s : slice) : nat := (slen s + sroom s)%nat.

Record i2cCmd : Type := I2cCmd { rw : byte; cmd : byte; len : Z; ptr : pointer }.

(** An [os.File]: its descriptor and the name it was opened under. *)
Record File : Type := MkFile { Fd : Z; Name : string }.
Record Conn : Type := MkConn { f : File }.

(** ** The kernel interface and the world *)

(** The third argument of [ioctl], as the kernel sees it: a plain integer,
    or the address of an [i2cCmd] together with the memory its [ptr] field
    points to. *)
Inductive ioarg : Type :=
| ArgVal (v : Z)
| ArgCmd (c : i2cCmd) (mem : list byte).

(** One entry of the system-call log.  [EvIoctl] records the request, the
    error number returned and the memory at [ptr] after the call. *)
Inductive event : Type :=
| EvOpen (path : string) (flag perm : Z) (r : Z + Z)
| EvClose (fd : Z) (e : Z)
| EvIoctl (fd req : Z) (arg : ioarg) (e1 : Z) (after : list byte).

Class Kernel (K : Type) : Type := {
  (** [open(2)]: a file descriptor on the left, an error number on the right *)
  sys_open : K -> string -> Z -> Z -> K * (Z + Z);
  (** [close(2)]: the error number, 0 on success *)
  sys_close : K -> Z -> K * Z;
  (** [ioctl(2)]: the error number and the bytes the kernel stores at the
      pointed-to memory *)
  sys_ioctl : K -> Z -> Z -> ioarg -> K * Z * list byte
}.

Record world (K : Type) : Type :=
  World { kern : K; heap : heap_t; trace : list event }.
Arguments World {K} _ _ _.
Arguments kern {K} _.
Arguments heap {K} _.
Arguments trace {K} _.

(** ** The monad: state passing over the world, with Go's run-time panics *)

Inductive outcome (A : Type) : Type :=
| Done (a : A)
| Panic (msg : string).
Arguments Done {A} _.
Arguments Panic {A} msg%_string.

Definition M (K A : Type) : Type := world K -> outcome A * world K.

Definition ret {K A} (a : A) : M K A := fun w => (Done a, w).

Definition bind {K A B} (m : M K A) (k : A -> M K B) : M K B :=
  fun w =>
    match m w with
    | (Done a, w') => k a w'
    | (Panic msg, w') => (Panic msg, w')
    end.

Declare Scope go_scope.
Delimit Scope go_scope with go.
Notation "x <- c1 ;; c2" := (bind c1 (fun x => c2))
  (at level 100, c1 at next level, right associativity) : go_scope.
Notation "c1 ;; c2" := (bind c1 (fun _ => c2))
  (at level 100, right associativity) : go_scope.
Local Open Scope go_scope.

(** ** Heap operations *)

(** The bytes from pointer [p] to the end of its allocation. *)
Definition deref (h : heap_t) (p : pointer) : list byte :=
  drop (poff p) (default [] (h !! pbase p)).

(** Overwrite the front of a memory region; the region keeps its size. *)
Definition store (old new : list byte) : list byte :=
  take (length old) (new ++ drop (length new) old).

(** Write [bs] at pointer [p], never beyond the end of the allocation. *)
Definition poke (h : heap_t) (p : pointer) (bs : list byte) : heap_t :=
  alter (fun blk => take (poff p) blk ++ store (drop (poff p) blk) bs) (pbase p) h.

(** The elements of a slice. *)
Definition elems (h : heap_t) (s : slice) : list byte :=
  take (slen s) (deref h (Pointer (base s) (off s))).

(** A slice denotes allocated memory. *)
Definition wf_slice (h : heap_t) (s : slice) : Prop :=
  exists blk, h !! base s = Some blk /\ (off s + slen s <= length blk)%nat.

Section Runtime.
Context {K : Type}.

(** [var v T]: a zeroed variable whose address is taken. *)
Definition new_var (init : list byte) : M K pointer :=
  fun w => (Done (Pointer (length (heap w)) 0),
            World (kern w) (heap w ++ [init]) (trace w)).

Definition load (p : pointer) (n : nat) : M K (list byte) :=
  fun w => (Done (take n (deref (heap w) p)), w).

(** [make([]byte, n, c)] *)
Definition make (n c : nat) : M K slice :=
  fun w =>
    if (c <? n)%nat then (Panic "makeslice: cap out of range", w)
    else (Done (Slice (length (heap w)) 0 n (c - n)),
          World (kern w) (heap w ++ [replicate c x00]) (trace w)).

(** [s[i] = v] *)
Definition set_index (s : slice) (i : nat) (v : byte) : M K unit :=
  fun w =>
    if (i <? slen s)%nat
    then (Done tt, World (kern w) (poke (heap w) (Pointer (base s) (off s + i)) [v]) (trace w))
    else (Panic "index out of range", w).

(** [&s[i]] *)
Definition addr_of (s : slice) (i : nat) : M K pointer :=
  fun w =>
    if (i <? slen s)%nat then (Done (Pointer (base s) (off s + i)), w)
    else (Panic "index out of range", w).

(** [s[lo:hi]] *)
Definition reslice (s : slice) (lo hi : nat) : M K slice :=
  fun w =>
    if ((lo <=? hi)%nat && (hi <=? scap s)%nat)%bool
    then (Done (Slice (base s) (off s + lo) (hi - lo) (scap s - hi)), w)
    else (Panic "slice bounds out of range", w).

(** [copy(dst, src)]: the source is read in full before the destination
    is written (the semantics of an overlapping [memmove]). *)
Definition copy (dst src : slice) : M K nat :=
  fun w =>
    let n := Nat.min (slen dst) (slen src) in
    let bs := take n (elems (heap w) src) in
    (Done n, World (kern w) (poke (heap w) (Pointer (base dst) (off dst)) bs) (trace w)).
End Runtime.

(** ** Standard-library calls used by the package *)

Section Syscalls.
Context {K : Type} {HK : Kernel K}.

(** [os.OpenFile(name, flag, perm)]: a file, or else an error *)
Definition os_OpenFile (name : string) (flag perm : Z) : M K (File + error) :=
  fun w =>
    let '(k', r) := sys_open (kern w) name flag perm in
    let w' := World k' (heap w) (trace w ++ [EvOpen name flag perm r]) in
    match r with
    | inl fd => (Done (inl (MkFile fd name)), w')
    | inr e => (Done (inr (PathError "open" name e)), w')
    end.

(** The Close method of [os.File], on a file that is open.  An
    [os.File] remembers that it was closed: a second [Close] returns
    [ErrClosed] without a system call, and [Fd] then returns -1.  A
    handle is followed here up to its first [Close] only. *)
Definition os_Close (fl : File) : M K (option error) :=
  fun w =>
    let '(k', e) := sys_close (kern w) (Fd fl) in
    (Done (if e =? 0 then None else Some (PathError "close" (Name fl) e)),
     World k' (heap w) (trace w ++ [EvClose (Fd fl) e])).

(** The third argument of the package's [ioctl]: [uintptr(addr)] or
    [uintptr(unsafe.Pointer(&cmd))]. *)
Inductive uintptr_arg : Type :=
| UVal (v : Z)
| UCmd (c : i2cCmd).

(** [syscall.Syscall6(syscall.SYS_IOCTL, fd, cmd, arg, 0, 0, 0)]: the
    kernel reads the memory behind the command, answers with an error
    number and writes its answer back to the same memory. *)
Definition Syscall6_ioctl (fd req : Z) (a : uintptr_arg) : M K Z :=
  fun w =>
    match a with
    | UVal v =>
        let '(k', e1, _) := sys_ioctl (kern w) fd req (ArgVal v) in
        (Done e1, World k' (heap w) (trace w ++ [EvIoctl fd req (ArgVal v) e1 []]))
    | UCmd c =>
        let mem := deref (heap w) (ptr c) in
        let '(k', e1, out) := sys_ioctl (kern w) fd req (ArgCmd c mem) in
        (Done e1, World k' (poke (heap w) (ptr c) out)
                    (trace w ++ [EvIoctl fd req (ArgCmd c mem) e1 (store mem out)]))
    end.
End Syscalls.

(** ** Package smbus *)

Definition ioctl {K} {HK : Kernel K} (fd req : Z) (arg : uintptr_arg) : M K (option error) :=
  e1 <- Syscall6_ioctl fd req arg ;;
  ret (if e1 =? 0 then None else Some (Errno e1)).

(** [fmt.Sprintf("/dev/i2c-%d", bus)] *)
Definition dev_path (bus : Z) : string :=
  ("/dev/i2c-" ++ NilZero.string_of_int (Z.to_int bus))%string.

Definition OpenFile {K} {HK : Kernel K} (bus : Z) : M K (option Conn * option error) :=
  r <- os_OpenFile (dev_path bus) O_RDWR perm0600 ;;
  match r with
  | inr err => ret (None, Some err)
  | inl fl => ret (Some (MkConn fl), None)
  end.

Definition Open {K} {HK : Kernel K} (bus : Z) (addr : byte) : M K (option Conn * option error) :=
  r <- os_OpenFile (dev_path bus) O_RDWR perm0600 ;;
  match r with
  | inr err => ret (None, Some err)
  | inl fl =>
      err <- ioctl (Fd fl) i2cSlave (UVal (int_of_byte addr)) ;;
      match err with
      | Some err => ret (None, Some err)
      | None => ret (Some (MkConn fl), None)
      end
  end.

(** Little-endian memory image of a [uint16], the byte order of the hosts
    the package runs on. *)
Definition bytes_of_uint16 (v : Z) : list byte :=
  [byte_of_int v; byte_of_int (v / 256)].

Definition uint16_of_bytes (bs : list byte) : Z :=
  int_of_byte (nth 0 bs x00) + 256 * int_of_byte (nth 1 bs x00).

Module Conn.

Definition Close {K} {HK : Kernel K} (c : Conn) : M K (option error) :=
  os_Close (f c).

Definition addr {K} {HK : Kernel K} (c : Conn) (a : byte) : M K (option error) :=
  ioctl (Fd (f c)) i2cSlave (UVal (int_of_byte a)).

Definition SetAddr {K} {HK : Kernel K} (c : Conn) (addr : byte) : M K (option error) :=
  Conn.addr c addr.

Definition ReadReg {K} {HK : Kernel K} (c : Conn) (addr reg : byte) : M K (byte * option error) :=
  err <- Conn.addr c addr ;;
  match err with
  | Some err => ret (x00, Some err)
  | None =>
      v <- new_var [x00] ;;
      let cmd := I2cCmd i2cSMBusRead reg i2cSMBusByteData v in
      err <- ioctl (Fd (f c)) i2cSMBus (UCmd cmd) ;;
      bs <- load v 1 ;;
      ret (nth 0 bs x00, err)
  end.

Definition WriteReg {K} {HK : Kernel K} (c : Conn) (addr reg v : byte) : M K (option error) :=
  err <- Conn.addr c addr ;;
  match err with
  | Some err => ret (Some err)
  | None =>
      v <- new_var [v] ;;
      let cmd := I2cCmd i2cSMBusWrite reg i2cSMBusByteData v in
      ioctl (Fd (f c)) i2cSMBus (UCmd cmd)
  end.

Definition ReadWord {K} {HK : Kernel K} (c : Conn) (addr reg : byte) : M K (Z * option error) :=
  err <- Conn.addr c addr ;;
  match err with
  | Some err => ret (0, Some err)
  | None =>
      v <- new_var (bytes_of_uint16 0) ;;
      let cmd := I2cCmd i2cSMBusRead reg i2cSMBusWordData v in
      err <- ioctl (Fd (f c)) i2cSMBus (UCmd cmd) ;;
      bs <- load v 2 ;;
      ret (uint16_of_bytes bs, err)
  end.

Definition WriteWord {K} {HK : Kernel K} (c : Conn) (addr reg : byte) (v : Z) : M K (option error) :=
  err <- Conn.addr c addr ;;
  match err with
  | Some err => ret (Some err)
  | None =>
      v <- new_var (bytes_of_uint16 v) ;;
      let cmd := I2cCmd i2cSMBusWrite reg i2cSMBusWordData v in
      ioctl (Fd (f c)) i2cSMBus (UCmd cmd)
  end.

Definition ReadBlockData {K} {HK : Kernel K} (c : Conn) (addr reg : byte) (buf : slice)
  : M K (option error) :=
  if Z.of_nat (slen buf) >? i2cSMBusBlockMax then ret (Some errSMBusBlockDataMax) else
  err <- Conn.addr c addr ;;
  match err with
  | Some err => ret (Some err)
  | None =>
      data <- make (slen buf + 1) (Z.to_nat (i2cSMBusBlockMax + 2)) ;;
      set_index data 0 (byte_of_int (Z.of_nat (slen buf))) ;;
      p <- addr_of data 0 ;;
      let cmd := I2cCmd i2cSMBusRead reg i2cSMBusI2CBlockData p in
      err <- ioctl (Fd (f c)) i2cSMBus (UCmd cmd) ;;
      match err with
      | Some err => ret (Some err)
      | None =>
          dst <- reslice buf 0 (slen buf) ;;
          src <- reslice data 1 (slen buf + 1) ;;
          copy dst src ;;
          ret None
      end
  end.

Definition WriteBlockData {K} {HK : Kernel K} (c : Conn) (addr reg : byte) (buf : slice)
  : M K (option error) :=
  if Z.of_nat (slen buf) >? i2cSMBusBlockMax then ret (Some errSMBusBlockDataMax) else
  err <- Conn.addr c addr ;;
  match err with
  | Some err => ret (Some err)
  | None =>
      data <- make (1 + slen buf) (Z.to_nat (i2cSMBusBlockMax + 2)) ;;
      set_index data 0 (byte_of_int (Z.of_nat (slen buf))) ;;
      dst <- reslice data 1 (slen data) ;;
      copy dst buf ;;
      p <- addr_of data 0 ;;
      let cmd := I2cCmd i2cSMBusWrite reg i2cSMBusI2CBlockData p in
      ioctl (Fd (f c)) i2cSMBus (UCmd cmd)
  end.

End Conn.

(** ** Observations on the system-call log *)

(** The events a run appended to the log. *)
Definition emitted {K} (w w' : world K) : list event :=
  drop (length (trace w)) (trace w').

Definition is_ioctl (ev : event) : bool :=
  match ev with
  | EvIoctl _ _ _ _ _ => true
  | _ => false
  end.

Definition is_select (ev : event) : bool :=
  match ev with
  | EvIoctl _ req _ _ _ => req =? i2cSlave
  | _ => false
  end.

Definition is_transaction (ev : event) : bool :=
  match ev with
  | EvIoctl _ req _ _ _ => req =? i2cSMBus
  | _ => false
  end.

Definition is_close (ev : event) : bool :=
  match ev with
  | EvClose _ _ => true
  | _ => false
  end.

(** The transaction counter of a mock kernel. *)
Definition transaction_count (tr : list event) : nat :=
  length (filter (fun ev => is_transaction ev = true) tr).

Definition ioctl_count (tr : list event) : nat :=
  length (filter (fun ev => is_ioctl ev = true) tr).

(** The device address each descriptor is bound to: an accepted
    [I2C_SLAVE] request binds it, a fresh [open] and a [close] unbind it. *)
Definition sel_step (sel : gmap Z Z) (ev : event) : gmap Z Z :=
  match ev with
  | EvOpen _ _ _ (inl fd) => delete fd sel
  | EvOpen _ _ _ (inr _) => sel
  | EvClose fd _ => delete fd sel
  | EvIoctl fd req (ArgVal a) e1 _ =>
      if (req =? i2cSlave) && (e1 =? 0) then <[fd := a]> sel else sel
  | EvIoctl _ _ (ArgCmd _ _) _ _ => sel
  end.

Definition selected_from (sel : gmap Z Z) (tr : list event) : gmap Z Z :=
  fold_left sel_step tr sel.

Definition selected (tr : list event) : gmap Z Z := selected_from ∅ tr.

(** For every transaction of the log, in order: its descriptor and the
    address that descriptor was bound to when the transaction was issued. *)
Fixpoint targets_from (sel : gmap Z Z) (tr : list event) : list (Z * option Z) :=
  match tr with
  | [] => []
  | ev :: tr' =>
      (if is_transaction ev
       then match ev with
            | EvIoctl fd _ _ _ _ => [(fd, sel !! fd)]
            | _ => []
            end
       else [])
      ++ targets_from (sel_step sel ev) tr'
  end.

Definition targets (tr : list event) : list (Z * option Z) := targets_from ∅ tr.

(** The descriptors that were opened and not closed since. *)
Definition open_step (fds : gset Z) (ev : event) : gset Z :=
  match ev with
  | EvOpen _ _ _ (inl fd) => {[fd]} ∪ fds
  | EvClose fd _ => fds ∖ {[fd]}
  | _ => fds
  end.

Definition open_fds (tr : list event) : gset Z := fold_left open_step tr ∅.

(** ** Two simulated kernels *)

(** The first stores what is written to a register of a device, per
    (address, register), and replays it on reads.  Every descriptor talks
    to the same bus. *)
Record echo_state : Type := EchoState {
  devs : list string;
  next_fd : Z;
  bound : gmap Z Z;
  regs : gmap (Z * Z) (list byte)
}.

Definition ENOENT : Z := 2.
Definition ENXIO : Z := 6.
Definition EBUSY : Z := 16.
Definition EINVAL : Z := 22.
Definition ENOTTY : Z := 25.

Definition echo_open (k : echo_state) (path : string) (flag perm : Z)
  : echo_state * (Z + Z) :=
  if bool_decide (path ∈ devs k)
  then (EchoState (devs k) (next_fd k + 1) (delete (next_fd k) (bound k)) (regs k),
        inl (next_fd k))
  else (k, inr ENOENT).

Definition echo_close (k : echo_state) (fd : Z) : echo_state * Z :=
  (EchoState (devs k) (next_fd k) (delete fd (bound k)) (regs k), 0).

(** Where the payload of a transaction lies in the user memory, by size
    class: offset and length. *)
Definition payload_extent (size : Z) (mem : list byte) : option (nat * nat) :=
  if size =? i2cSMBusByteData then Some (0%nat, 1%nat)
  else if size =? i2cSMBusWordData then Some (0%nat, 2%nat)
  else if (size =? i2cSMBusBlockData) || (size =? i2cSMBusI2CBlockData)
       then Some (1%nat, Z.to_nat (int_of_byte (nth 0 mem x00)))
       else None.

Definition echo_ioctl (k : echo_state) (fd req : Z) (arg : ioarg)
  : echo_state * Z * list byte :=
  match arg with
  | ArgVal a =>
      if req =? i2cSlave
      then (EchoState (devs k) (next_fd k) (<[fd := a]> (bound k)) (regs k), 0, [])
      else (k, ENOTTY, [])
  | ArgCmd c mem =>
      if negb (req =? i2cSMBus) then (k, ENOTTY, []) else
      match bound k !! fd, payload_extent (len c) mem with
      | None, _ => (k, ENXIO, [])
      | _, None => (k, EINVAL, [])
      | Some a, Some (o, n) =>
          let key := (a, int_of_byte (cmd c)) in
          if Byte.eqb (rw c) i2cSMBusWrite
          then (EchoState (devs k) (next_fd k) (bound k)
                  (<[key := take n (drop o mem)]> (regs k)), 0, [])
          else match regs k !! key with
               | None => (k, ENXIO, [])
               | Some p => (k, 0, take o mem ++ take n p)
               end
      end
  end.

#[export] Instance echo_kernel : Kernel echo_state :=
  {| sys_open := echo_open; sys_close := echo_close; sys_ioctl := echo_ioctl |}.

(** The second is a bus whose addresses are all held by drivers inside the
    kernel: the device file opens, every address is refused. *)
Definition busy_open (k : Z) (path : string) (flag perm : Z) : Z * (Z + Z) :=
  (k + 1, inl k).

Definition busy_close (k : Z) (fd : Z) : Z * Z := (k, 0).

Definition busy_ioctl (k : Z) (fd req : Z) (arg : ioarg) : Z * Z * list byte :=
  if req =? i2cSlave then (k, EBUSY, []) else (k, ENOTTY, []).

Definition busy_kernel : Kernel Z :=
  {| sys_open := busy_open; sys_close := busy_close; sys_ioctl := busy_ioctl |}.

(** A machine with bus 1 and nothing written yet; descriptors start at 3. *)
Definition fresh_echo : echo_state := EchoState ["/dev/i2c-1"%string] 3 ∅ ∅.

Definition boot {K} (k : K) (h : heap_t) : world K := World k h [].

(** ** The vocabulary of the properties *)

Definition errno_error (e : Z) : option error :=
  if e =? 0 then None else Some (Errno e).

Definition select_event (c : Conn) (a : byte) (e0 : Z) : event :=
  EvIoctl (Fd (f c)) i2cSlave (ArgVal (int_of_byte a)) e0 [].

Definition smbus_event (c : Conn) (c0 : i2cCmd) (mem : list byte) (e1 : Z)
    (out : list byte) : event :=
  EvIoctl (Fd (f c)) i2cSMBus (ArgCmd c0 mem) e1 (store mem out).

(** The command that the block operations build; [l] is the allocation
    of the transfer buffer. *)
Definition block_cmd (dir reg : byte) (l : nat) : i2cCmd :=
  I2cCmd dir reg i2cSMBusI2CBlockData (Pointer l 0).

(** The memory image of a block transfer of [n] bytes: the length byte,
    the payload, zeroes up to the 34 bytes of the capacity. *)
Definition block_image (n : nat) (payload : list byte) : list byte :=
  byte_of_int (Z.of_nat n) :: payload ++ replicate (33 - length payload) x00.

(** The bytes of a block buffer that take part in the transfer: the
    length byte and as many bytes as it announces. *)
Definition wire_buffer (mem : list byte) : list byte :=
  take (S (Z.to_nat (int_of_byte (nth 0 mem x00)))) mem.

(** The events of one register operation on connection [c] for device
    [a]: the address select and, unless the kernel refuses it, one
    transaction, whose command and memory satisfy [P]. *)
Inductive call_shape (c : Conn) (a : byte) (P : i2cCmd -> list byte -> Prop)
  : list event -> Prop :=
| shape_refused (e0 : Z) :
    e0 <> 0 -> call_shape c a P [select_event c a e0]
| shape_issued (c0 : i2cCmd) (mem : list byte) (e1 : Z) (after : list byte) :
    P c0 mem ->
    call_shape c a P
      [select_event c a 0; EvIoctl (Fd (f c)) i2cSMBus (ArgCmd c0 mem) e1 after].

(** The six register operations, as one type. *)
Inductive regop : Type :=
| OpReadReg (addr reg : byte)
| OpWriteReg (addr reg v : byte)
| OpReadWord (addr reg : byte)
| OpWriteWord (addr reg : byte) (v : Z)
| OpReadBlockData (addr reg : byte) (buf : slice)
| OpWriteBlockData (addr reg : byte) (buf : slice).

Definition op_addr (op : regop) : byte :=
  match op with
  | OpReadReg a _ | OpWriteReg a _ _ | OpReadWord a _ | OpWriteWord a _ _
  | OpReadBlockData a _ _ | OpWriteBlockData a _ _ => a
  end.

Definition op_reg (op : regop) : byte :=
  match op with
  | OpReadReg _ r | OpWriteReg _ r _ | OpReadWord _ r | OpWriteWord _ r _
  | OpReadBlockData _ r _ | OpWriteBlockData _ r _ => r
  end.

(** The block operations stop before any I/O on a buffer of more than 32
    bytes. *)
Definition op_too_long (op : regop) : bool :=
  match op with
  | OpReadBlockData _ _ buf | OpWriteBlockData _ _ buf =>
      Z.of_nat (slen buf) >? i2cSMBusBlockMax
  | _ => false
  end.

(** Run an operation, keeping its error result. *)
Definition run_op {K} {HK : Kernel K} (c : Conn) (op : regop) : M K (option error) :=
  match op with
  | OpReadReg a r => x <- Conn.ReadReg c a r ;; ret (snd x)
  | OpWriteReg a r v => Conn.WriteReg c a r v
  | OpReadWord a r => x <- Conn.ReadWord c a r ;; ret (snd x)
  | OpWriteWord a r v => Conn.WriteWord c a r v
  | OpReadBlockData a r buf => Conn.ReadBlockData c a r buf
  | OpWriteBlockData a r buf => Conn.WriteBlockData c a r buf
  end.

(** ** Scenario data *)

(** A connection on descriptor 3, the first that [fresh_echo] hands out. *)
Definition conn3 : Conn := MkConn (MkFile 3 "/dev/i2c-1").

(** Four payload bytes in allocation 0 and a four-byte buffer, at offset
    1 of allocation 1. *)
Definition heap0 : list (list byte) :=
  [[xde; xad; xbe; xef]; [xff; xff; xff; xff; xff; xff]].
Definition payload4 : slice := Slice 0 0 4 0.
Definition buffer4 : slice := Slice 1 1 4 1.
Definition buffer33 : slice := Slice 2 0 33 0.
Definition buffer0 : slice := Slice 0 0 0 0.

Definition world0 : world echo_state := boot fresh_echo heap0.
Definition world33 : world echo_state := boot fresh_echo (heap0 ++ [replicate 33 x00]).

(** The world after the four bytes were written to register 0 of device
    0x50. *)
Definition world_written : world echo_state :=
  snd (Conn.WriteBlockData conn3 x50 x00 payload4 world0).

(** ** More vocabulary: the byte and word operations *)

(** The command that the byte and word operations build; [l] is the
    allocation of the variable that holds the value. *)
Definition value_cmd (dir reg : byte) (size : Z) (l : nat) : i2cCmd :=
  I2cCmd dir reg size (Pointer l 0).

(** The error of the last ioctl of a list of events, as the package's
    [ioctl] turns it into a Go error. *)
Definition last_error (evs : list event) : option error :=
  match last evs with
  | Some (EvIoctl _ _ _ e1 _) => errno_error e1
  | _ => None
  end.

(** * The device drivers built on the transport *)

(** ** What the drivers use of Go *)

(** Errors as the drivers make them: an error of the transport passed
    on, [errors.New(msg)], [fmt.Errorf(format, err)]. *)
Inductive gerror : Type :=
| Smbus (e : error)
| ErrorsNew (msg : string)
| Errorf (format : string) (arg : gerror).

(** [float64] and its arithmetic, left uninterpreted: [f_const n d] is
    the constant [n/d], [f_int] the conversion of an integer. *)
Class Float64 (F : Type) : Type := {
  f_const : Z -> Z -> F;
  f_int : Z -> F;
  f_add : F -> F -> F;
  f_sub : F -> F -> F;
  f_mul : F -> F -> F;
  f_div : F -> F -> F;
  f_NaN : F
}.

(** Bitwise or of two [uint8]. *)
Definition bor (a b : byte) : byte :=
  byte_of_int (Z.lor (int_of_byte a) (int_of_byte b)).

(** [uint8(a + n)] for a register constant plus an offset. *)
Definition badd (a : byte) (n : Z) : byte := byte_of_int (int_of_byte a + n).

(** [int16(u)] for a [uint16]: the two's complement reading. *)
Definition int16_of_uint16 (u : Z) : Z :=
  if u mod 65536 <? 32768 then u mod 65536 else u mod 65536 - 65536.

Section DriverRuntime.
Context {K : Type}.




End DriverRuntime.

(** [binary.LittleEndian.Uint16] of the two-byte array [{lsb, msb}]. *)
Definition LittleEndian_Uint16 (lsb msb : byte) : Z :=
  Z.lor (int_of_byte lsb) (Z.shiftl (int_of_byte msb) 8).

(** ** Package sht3x *)

Module sht3x.

Definition I2CAddr : byte := x44.

Definition _MEAS_HIGHREP_STRETCH : Z := 0x2C06.
Definition _MEAS_MEDREP_STRETCH : Z := 0x2C0D.
Definition _MEAS_LOWREP_STRETCH : Z := 0x2C10.
Definition _MEAS_HIGHREP : Z := 0x2400.
Definition _MEAS_MEDREP : Z := 0x240B.
Definition _MEAS_LOWREP : Z := 0x2416.
Definition _READSTATUS : Z := 0xF32D.
Definition _CLEARSTATUS : Z := 0x3041.
Definition _SOFTRESET : Z := 0x30A2.
Definition _HEATER_ON : Z := 0x306D.
Definition _HEATER_OFF : Z := 0x3066.

Definition errInvalidTemp : gerror := ErrorsNew "sht3x: invalid temperature".

Record Device : Type := MkDevice { conn : Conn; addr : byte }.

(** [Open] waits 50 ms, which has no counterpart here. *)
Definition Open {K} (c : Conn) (a : byte) : M K (option Device * option gerror) :=
  ret (Some (MkDevice c a), None).

Definition Close {K} {HK : Kernel K} (dev : Device) : M K (option error) :=
  Conn.Close (conn dev).

Definition writeCmd {K} {HK : Kernel K} (dev : Device) (cmd : Z) : M K (option error) :=
  Conn.WriteReg (conn dev) (addr dev)
    (byte_of_int (Z.shiftr cmd 8)) (byte_of_int (Z.land cmd 0xFF)).

Definition ClearStatus {K} {HK : Kernel K} (dev : Device) : M K (option error) :=
  writeCmd dev _CLEARSTATUS.

(** One turn of the inner loop of [crc8], on a [uint8]. *)
Definition crc8_shift (crc : Z) : Z :=
  if negb (Z.land crc 0x80 =? 0)
  then Z.lxor (Z.shiftl crc 1 mod 256) 0x31
  else Z.shiftl crc 1 mod 256.

(** The body of the outer loop: one byte of the buffer. *)
Definition crc8_byte (crc : Z) (v : byte) : Z :=
  Nat.iter 8 crc8_shift (Z.lxor crc (int_of_byte v)).

Definition crc8 (buf : list byte) : Z :=
  Z.land (fold_left crc8_byte buf 0xFF) 0xFF.


End sht3x.

(** ** Package adc101c *)

Module adc101c.

Definition DefaultI2CAddr : byte := x50.

Record Device : Type := MkDevice { conn : Conn; addr : byte; bits : byte }.

Definition configRegister : byte := x02.
Definition autoConvMode : byte := x20.

Definition Open {K} {HK : Kernel K} (c : Conn) (a : byte)
  : M K (option Device * option error) :=
  let dev := MkDevice c a (byte_of_int 10) in
  err <- Conn.SetAddr (conn dev) (addr dev) ;;
  match err with
  | Some err => ret (None, Some err)
  | None =>
      err <- Conn.WriteReg (conn dev) (addr dev) configRegister autoConvMode ;;
      match err with
      | Some err => ret (None, Some err)
      | None => ret (Some dev, None)
      end
  end.


End adc101c.

(** ** Package tsl2591 *)

Module tsl2591.

Definition IntegTime100ms : byte := x00.
Definition IntegTime200ms : byte := x01.
Definition IntegTime300ms : byte := x02.
Definition IntegTime400ms : byte := x03.
Definition IntegTime500ms : byte := x04.
Definition IntegTime600ms : byte := x05.

Definition GainLow : byte := x00.
Definition GainMed : byte := x10.
Definition GainHigh : byte := x20.
Definition GainMax : byte := x30.

Definition Addr : byte := x29.
Definition CmdBit : byte := xa0.
Definition EnablePowerON : byte := x01.
Definition EnablePowerOFF : byte := x00.
Definition EnableAEN : byte := x02.
Definition EnableAIEN : byte := x10.
Definition RegEnable : byte := x00.
Definition RegControl : byte := x01.

Record Device : Type :=
  MkDevice { conn : Conn; addr : byte; integ : byte; gain : byte }.

Definition enable {K} {HK : Kernel K} (dev : Device) : M K (option error) :=
  Conn.WriteReg (conn dev) (addr dev) (bor CmdBit RegEnable)
    (bor (bor EnablePowerON EnableAEN) EnableAIEN).

Definition disable {K} {HK : Kernel K} (dev : Device) : M K (option error) :=
  Conn.WriteReg (conn dev) (addr dev) (bor CmdBit RegEnable) EnablePowerOFF.

(** The methods that assign to a field of the device return the device
    as they leave it. *)
Definition setTiming {K} {HK : Kernel K} (dev : Device) (i : byte)
  : M K (Device * option error) :=
  err <- enable dev ;;
  match err with
  | Some err => ret (dev, Some err)
  | None =>
      let dev := MkDevice (conn dev) (addr dev) i (gain dev) in
      err <- Conn.WriteReg (conn dev) (addr dev) (bor CmdBit RegControl)
               (bor (integ dev) (gain dev)) ;;
      match err with
      | Some err => ret (dev, Some err)
      | None => err <- disable dev ;; ret (dev, err)
      end
  end.

Definition setGain {K} {HK : Kernel K} (dev : Device) (g : byte)
  : M K (Device * option error) :=
  err <- enable dev ;;
  match err with
  | Some err => ret (dev, Some err)
  | None =>
      let dev := MkDevice (conn dev) (addr dev) (integ dev) g in
      err <- Conn.WriteReg (conn dev) (addr dev) (bor CmdBit RegControl)
               (bor (integ dev) (gain dev)) ;;
      match err with
      | Some err => ret (dev, Some err)
      | None => err <- disable dev ;; ret (dev, err)
      end
  end.

Definition Gain (dev : Device) : byte := gain dev.

Definition Timing (dev : Device) : byte := integ dev.

Definition Open {K} {HK : Kernel K} (c : Conn) (a i g : byte)
  : M K (option Device * option error) :=
  let dev := MkDevice c a x00 x00 in
  r <- setTiming dev i ;;
  match r with
  | (_, Some err) => ret (None, Some err)
  | (dev, None) =>
      r <- setGain dev g ;;
      match r with
      | (_, Some err) => ret (None, Some err)
      | (dev, None) =>
          err <- disable dev ;;
          match err with
          | Some err => ret (None, Some err)
          | None => ret (Some dev, None)
          end
      end
  end.


End tsl2591.

(** ** Package bme280: the raw readings *)

Module bme280.

Definition I2CAddr : byte := x76.

Definition regControlHum : byte := xf2.
Definition regControl : byte := xf4.
Definition regPressureData : byte := xf7.
Definition regTempData : byte := xfa.
Definition regHumidityData : byte := xfd.

(** The fields of the device that the raw readings use. *)
Record Device : Type := MkDevice { conn : Conn; addr : byte; mode : byte }.

(** [(int32(msb)<<16 | int32(lsb)<<8 | int32(xlsb)) >> 4] *)
Definition join20 (msb lsb xlsb : byte) : Z :=
  Z.shiftr (Z.lor (Z.lor (Z.shiftl (int_of_byte msb) 16)
                         (Z.shiftl (int_of_byte lsb) 8))
                  (int_of_byte xlsb)) 4.

(** [rawT]; the wait between the writes and the reads has no counterpart
    here. *)
Definition rawT {K} {HK : Kernel K} (dev : Device) : M K (Z * option error) :=
  let meas := mode dev in
  err <- Conn.WriteReg (conn dev) (addr dev) regControlHum meas ;;
  match err with
  | Some err => ret (0, Some err)
  | None =>
      let ctl := byte_of_int (Z.lor (Z.lor (Z.shiftl (int_of_byte meas) 5 mod 256)
                                           (Z.shiftl (int_of_byte meas) 2 mod 256)) 1) in
      err <- Conn.WriteReg (conn dev) (addr dev) regControl ctl ;;
      match err with
      | Some err => ret (0, Some err)
      | None =>
          r <- Conn.ReadReg (conn dev) (addr dev) regTempData ;;
          match r with
          | (_, Some err) => ret (0, Some err)
          | (msb, None) =>
              r <- Conn.ReadReg (conn dev) (addr dev) (badd regTempData 1) ;;
              match r with
              | (_, Some err) => ret (0, Some err)
              | (lsb, None) =>
                  r <- Conn.ReadReg (conn dev) (addr dev) (badd regTempData 2) ;;
                  match r with
                  | (_, Some err) => ret (0, Some err)
                  | (xlsb, None) => ret (join20 msb lsb xlsb, None)
                  end
              end
          end
      end
  end.

Definition rawP {K} {HK : Kernel K} (dev : Device) : M K (Z * option error) :=
  r <- Conn.ReadReg (conn dev) (addr dev) regPressureData ;;
  match r with
  | (_, Some err) => ret (0, Some err)
  | (msb, None) =>
      r <- Conn.ReadReg (conn dev) (addr dev) (badd regPressureData 1) ;;
      match r with
      | (_, Some err) => ret (0, Some err)
      | (lsb, None) =>
          r <- Conn.ReadReg (conn dev) (addr dev) (badd regPressureData 2) ;;
          match r with
          | (_, Some err) => ret (0, Some err)
          | (xlsb, None) => ret (join20 msb lsb xlsb, None)
          end
      end
  end.

Definition rawH {K} {HK : Kernel K} (dev : Device) : M K (Z * option error) :=
  r <- Conn.ReadReg (conn dev) (addr dev) regHumidityData ;;
  match r with
  | (_, Some err) => ret (0, Some err)
  | (msb, None) =>
      r <- Conn.ReadReg (conn dev) (addr dev) (badd regHumidityData 1) ;;
      match r with
      | (_, Some err) => ret (0, Some err)
      | (lsb, None) =>
          ret (Z.lor (Z.shiftl (int_of_byte msb) 8) (int_of_byte lsb), None)
      end
  end.

(** [raw]: humidity, pressure, temperature, error.  On an error the
    values read so far are returned with it. *)
Definition raw {K} {HK : Kernel K} (dev : Device) : M K (Z * Z * Z * option error) :=
  r <- rawT dev ;;
  match r with
  | (t, Some err) => ret (0, 0, t, Some err)
  | (t, None) =>
      r <- rawP dev ;;
      match r with
      | (p, Some err) => ret (0, p, t, Some err)
      | (p, None) =>
          r <- rawH dev ;;
          match r with
          | (h, Some err) => ret (h, p, t, Some err)
          | (h, None) => ret (h, p, t, None)
          end
      end
  end.

End bme280.

(** ** Package at30tse75x *)

Module at30tse75x.

Definition regAddTemp : Z := 0x48.
Definition regAddEEPROM : Z := 0x50.

Definition configRes9Bit : byte := x00.
Definition configRes10Bit : byte := x01.
Definition configRes11Bit : byte := x02.
Definition configRes12Bit : byte := x03.

Definition regConfig : byte := x01.

Record Device : Type :=
  MkDevice { conn : Conn; addr : byte; esize : Z; eaddr : byte; taddr : byte }.

(** [(((addr & 0x7) | reg) & 0x7f) << 1], on [uint8] *)
Definition sub_addr (a : byte) (reg : Z) : byte :=
  byte_of_int (Z.shiftl (Z.land (Z.lor (Z.land (int_of_byte a) 0x7) reg) 0x7f) 1).

Definition Open {K} {HK : Kernel K} (c : Conn) (a : byte) (size : Z)
  : M K (option Device * option error) :=
  let dev := MkDevice c x4c size (sub_addr a regAddEEPROM) (sub_addr a regAddTemp) in
  err <- Conn.SetAddr (conn dev) (addr dev) ;;
  match err with
  | Some err => ret (None, Some err)
  | None =>
      r <- Conn.ReadWord (conn dev) (addr dev) regConfig ;;
      match r with
      | (_, Some err) => ret (None, Some err)
      | (_, None) => ret (Some dev, None)
      end
  end.


(** [fmt.Errorf("at30tse75x: invalid resolution value (%d)", res)], as
    its message. *)
Definition invalid_resolution (res : byte) : string :=
  ("at30tse75x: invalid resolution value ("
   ++ NilZero.string_of_int (Z.to_int (int_of_byte res)) ++ ")")%string.

(** [convTemp]: the value, or the panic of the [default] case. *)
Definition convTemp {F} {HF : Float64 F} (raw : Z) (res : byte) : outcome F :=
  let fact := f_const 1 1 in
  let sign := f_const 1 1 in
  let '(sign, raw) :=
    if Z.land raw 0x8000 =? 1
    then (f_const (-1) 1, (Z.land raw 0x7fff + 1) mod 65536)
    else (sign, raw) in
  let r :=
    if Byte.eqb res configRes9Bit then Some (Z.shiftr raw 7, f_const 1 2)
    else if Byte.eqb res configRes10Bit then Some (Z.shiftr raw 6, f_const 1 4)
    else if Byte.eqb res configRes11Bit then Some (Z.shiftr raw 5, f_const 1 8)
    else if Byte.eqb res configRes12Bit then Some (Z.shiftr raw 4, f_const 1 16)
    else None in
  match r with
  | Some (raw, fact) => Done (f_mul (f_mul (f_int raw) sign) fact)
  | None => Panic (invalid_resolution res)
  end.


End at30tse75x.

(** ** Package hts221: decoding a register pair *)

Module hts221.

Definition convI16 (lsb msb : byte) : Z :=
  int16_of_uint16 (LittleEndian_Uint16 lsb msb).

End hts221.

(** ** Vocabulary of the driver properties *)

(** The values of a [uint8]. *)
Definition bytes256 : list Z := map Z.of_nat (seq 0 256).



(** * Properties *)

(** ** Bytes and memory regions *)

Lemma int_of_byte_of_int (z : Z) :
  0 <= z < 256 -> int_of_byte (byte_of_int z) = z.
Proof.
  intros Hz. unfold int_of_byte, byte_of_int.
  rewrite Z.mod_small by lia.
  destruct (Byte.of_N (Z.to_N z)) as [b|] eqn:E.
  - apply Byte.to_of_N in E. rewrite E. lia.
  - apply Byte.of_N_None_iff in E. lia.
Qed.

Lemma length_store (old new : list byte) : length (store old new) = length old.
Proof.
  unfold store. rewrite length_take, length_app, length_drop. lia.
Qed.

Lemma store_zeros (m : nat) (bs : list byte) :
  (length bs <= m)%nat ->
  store (replicate m x00) bs = bs ++ replicate (m - length bs) x00.
Proof.
  intros Hm. unfold store.
  rewrite length_replicate, drop_replicate.
  apply take_ge. rewrite length_app, length_replicate. lia.
Qed.

Lemma length_block_image (n : nat) (payload : list byte) :
  (length payload <= 33)%nat -> length (block_image n payload) = 34%nat.
Proof.
  intros H. unfold block_image. simpl. rewrite length_app, length_replicate. lia.
Qed.

(** ** The heap *)

Lemma deref_fresh (h : heap_t) (blk : list byte) :
  deref (h ++ [blk]) (Pointer (length h) 0) = blk.
Proof.
  unfold deref. simpl. by rewrite list_lookup_middle.
Qed.

Lemma poke_fresh (h : heap_t) (blk bs : list byte) (o : nat) :
  poke (h ++ [blk]) (Pointer (length h) o) bs
  = h ++ [take o blk ++ store (drop o blk) bs].
Proof.
  unfold poke. simpl.
  by rewrite (alter_app_r_alt _ h [blk] (length h)), Nat.sub_diag by lia.
Qed.

Lemma elems_old (h h' : heap_t) (s : slice) :
  wf_slice h s -> elems (h ++ h') s = elems h s.
Proof.
  intros (blk & Hb & _). unfold elems, deref. simpl.
  by rewrite (lookup_app_l_Some _ _ _ _ Hb), Hb.
Qed.

Lemma elems_empty (h : heap_t) (s : slice) : slen s = 0%nat -> elems h s = [].
Proof. intros E. unfold elems. by rewrite E. Qed.

Lemma length_elems (h : heap_t) (s : slice) :
  wf_slice h s -> length (elems h s) = slen s.
Proof.
  intros (blk & Hb & Hlen). unfold elems, deref. simpl. rewrite Hb. simpl.
  rewrite length_take, length_drop. lia.
Qed.

Lemma wf_slice_app (h h' : heap_t) (s : slice) :
  wf_slice h s -> wf_slice (h ++ h') s.
Proof.
  intros (blk & Hb & Hlen). exists blk. split; [|done].
  by apply lookup_app_l_Some.
Qed.

(** Writing a whole slice, then reading it. *)
Lemma elems_poke (h : heap_t) (s : slice) (bs : list byte) :
  wf_slice h s -> length bs = slen s ->
  elems (poke h (Pointer (base s) (off s)) bs) s = bs.
Proof.
  intros (blk & Hb & Hlen) Hbs. unfold elems, deref, poke. simpl.
  rewrite list_lookup_alter_eq, Hb. simpl.
  rewrite drop_app_length' by (rewrite length_take; lia).
  unfold store. rewrite length_drop.
  rewrite take_take, take_app_le by lia.
  apply take_ge. lia.
Qed.

(** ** Running the system calls *)

Section Run.
Context {K : Type} {HK : Kernel K}.

Lemma addr_run (c : Conn) (a : byte) (w : world K) :
  Conn.addr c a w =
  let '(k1, e0, _) := sys_ioctl (kern w) (Fd (f c)) i2cSlave (ArgVal (int_of_byte a)) in
  (Done (errno_error e0), World k1 (heap w) (trace w ++ [select_event c a e0])).
Proof.
  unfold Conn.addr, ioctl, bind, Syscall6_ioctl, ret.
  by destruct (sys_ioctl _ _ _ _) as [[k1 e0] o].
Qed.

Lemma ioctl_cmd_run (c : Conn) (c0 : i2cCmd) (w : world K) :
  ioctl (Fd (f c)) i2cSMBus (UCmd c0) w =
  let mem := deref (heap w) (ptr c0) in
  let '(k1, e1, out) := sys_ioctl (kern w) (Fd (f c)) i2cSMBus (ArgCmd c0 mem) in
  (Done (errno_error e1),
   World k1 (poke (heap w) (ptr c0) out) (trace w ++ [smbus_event c c0 mem e1 out])).
Proof.
  unfold ioctl, bind, Syscall6_ioctl, ret. simpl.
  by destruct (sys_ioctl _ _ _ _) as [[k1 e1] o].
Qed.

Lemma too_long_false (n : nat) :
  (n <= 32)%nat -> (Z.of_nat n >? i2cSMBusBlockMax) = false.
Proof. intros H. unfold i2cSMBusBlockMax. lia. Qed.

Lemma too_long_true (n : nat) :
  (32 < n)%nat -> (Z.of_nat n >? i2cSMBusBlockMax) = true.
Proof. intros H. unfold i2cSMBusBlockMax. lia. Qed.

Lemma ReadBlockData_too_long (c : Conn) (addr reg : byte) (buf : slice) (w : world K) :
  (32 < slen buf)%nat ->
  Conn.ReadBlockData c addr reg buf w = (Done (Some errSMBusBlockDataMax), w).
Proof. intros H. unfold Conn.ReadBlockData. by rewrite too_long_true. Qed.

Lemma WriteBlockData_too_long (c : Conn) (addr reg : byte) (buf : slice) (w : world K) :
  (32 < slen buf)%nat ->
  Conn.WriteBlockData c addr reg buf w = (Done (Some errSMBusBlockDataMax), w).
Proof. intros H. unfold Conn.WriteBlockData. by rewrite too_long_true. Qed.

Lemma bind_run {A B} (m : M K A) (k : A -> M K B) (w : world K) :
  bind m k w =
  match m w with
  | (Done a, w') => k a w'
  | (Panic msg, w') => (Panic msg, w')
  end.
Proof. reflexivity. Qed.

Lemma make_run (n c : nat) (w : world K) :
  (n <= c)%nat ->
  make n c w = (Done (Slice (length (heap w)) 0 n (c - n)),
                World (kern w) (heap w ++ [replicate c x00]) (trace w)).
Proof.
  intros H. unfold make.
  by destruct (Nat.ltb_spec c n); [lia|].
Qed.

Lemma set_index_run (s : slice) (i : nat) (v : byte) (w : world K) :
  (i < slen s)%nat ->
  set_index s i v w =
  (Done tt, World (kern w) (poke (heap w) (Pointer (base s) (off s + i)) [v]) (trace w)).
Proof.
  intros H. unfold set_index.
  by destruct (Nat.ltb_spec i (slen s)); [|lia].
Qed.

Lemma addr_of_run (s : slice) (i : nat) (w : world K) :
  (i < slen s)%nat ->
  addr_of s i w = (Done (Pointer (base s) (off s + i)), w).
Proof.
  intros H. unfold addr_of.
  by destruct (Nat.ltb_spec i (slen s)); [|lia].
Qed.

Lemma reslice_run (s : slice) (lo hi : nat) (w : world K) :
  (lo <= hi)%nat -> (hi <= scap s)%nat ->
  reslice s lo hi w =
  (Done (Slice (base s) (off s + lo) (hi - lo) (scap s - hi)), w).
Proof.
  intros H1 H2. unfold reslice.
  destruct (Nat.leb_spec lo hi); [|lia].
  by destruct (Nat.leb_spec hi (scap s)); [|lia].
Qed.

Lemma zero_block_head (b : byte) :
  take 0 (replicate 34 x00) ++ store (drop 0 (replicate 34 x00)) [b]
  = b :: replicate 33 x00.
Proof. reflexivity. Qed.

Lemma zero_block_fill (b : byte) (bs : list byte) :
  (length bs <= 33)%nat ->
  take 1 (b :: replicate 33 x00) ++ store (drop 1 (b :: replicate 33 x00)) bs
  = b :: bs ++ replicate (33 - length bs) x00.
Proof.
  intros H. change (take 1 (b :: replicate 33 x00)) with [b].
  change (drop 1 (b :: replicate 33 x00)) with (replicate 33 x00).
  by rewrite store_zeros.
Qed.

(** [WriteBlockData] on a buffer that passes the length check, in terms
    of the two answers of the kernel. *)
Lemma WriteBlockData_run (c : Conn) (addr reg : byte) (buf : slice) (w : world K) :
  (slen buf <= 32)%nat ->
  Conn.WriteBlockData c addr reg buf w =
  let '(k1, e0, _) := sys_ioctl (kern w) (Fd (f c)) i2cSlave (ArgVal (int_of_byte addr)) in
  let tr1 := trace w ++ [select_event c addr e0] in
  if e0 =? 0 then
    let n := slen buf in
    let l := length (heap w) in
    let c0 := block_cmd i2cSMBusWrite reg l in
    let mem := block_image n (elems (heap w ++ [block_image n []]) buf) in
    let '(k2, e1, out) := sys_ioctl k1 (Fd (f c)) i2cSMBus (ArgCmd c0 mem) in
    (Done (errno_error e1),
     World k2 (heap w ++ [store mem out]) (tr1 ++ [smbus_event c c0 mem e1 out]))
  else (Done (Some (Errno e0)), World k1 (heap w) tr1).
Proof.
  intros Hn. unfold Conn.WriteBlockData.
  rewrite too_long_false by done.
  rewrite bind_run, addr_run.
  destruct (sys_ioctl _ _ _ _) as [[k1 e0] o0].
  unfold errno_error. destruct (e0 =? 0) eqn:He0; [|done].
  change (Z.to_nat (i2cSMBusBlockMax + 2)) with 34%nat.
  rewrite bind_run, make_run by lia.
  rewrite bind_run, set_index_run by (cbn [slen]; lia).
  rewrite bind_run, reslice_run by (unfold scap; cbn [slen sroom]; lia).
  rewrite bind_run. unfold copy.
  rewrite bind_run, addr_of_run by (cbn [slen]; lia).
  cbn [kern heap trace base off slen sroom pbase poff].
  change (0 + 0)%nat with 0%nat. change (0 + 1)%nat with 1%nat.
  rewrite (poke_fresh (heap w) (replicate 34 x00)), zero_block_head.
  rewrite (poke_fresh (heap w) (_ :: _)).
  replace (1 + slen buf - 1)%nat with (slen buf) by lia.
  rewrite Nat.min_id.
  set (payload := take (slen buf) (elems _ buf)).
  assert (Hp : payload = elems (heap w ++ [block_image (slen buf) []]) buf).
  { unfold payload, elems. by rewrite take_take, Nat.min_id. }
  rewrite zero_block_fill by (unfold payload; rewrite length_take; lia).
  rewrite ioctl_cmd_run.
  cbn [kern heap trace ptr]. cbv zeta.
  rewrite deref_fresh, Hp.
  fold (block_image (slen buf) (elems (heap w ++ [block_image (slen buf) []]) buf)).
  fold (block_cmd i2cSMBusWrite reg (length (heap w))).
  destruct (sys_ioctl _ _ _ _) as [[k2 e1] out].
  by rewrite (poke_fresh (heap w) (block_image _ _)), take_0, drop_0.
Qed.
(** [ReadBlockData] on a buffer that passes the length check: the copy
    into [buf] happens on the last path only. *)
Lemma ReadBlockData_run (c : Conn) (addr reg : byte) (buf : slice) (w : world K) :
  (slen buf <= 32)%nat ->
  Conn.ReadBlockData c addr reg buf w =
  let '(k1, e0, _) := sys_ioctl (kern w) (Fd (f c)) i2cSlave (ArgVal (int_of_byte addr)) in
  let tr1 := trace w ++ [select_event c addr e0] in
  if e0 =? 0 then
    let n := slen buf in
    let l := length (heap w) in
    let c0 := block_cmd i2cSMBusRead reg l in
    let mem := block_image n [] in
    let '(k2, e1, out) := sys_ioctl k1 (Fd (f c)) i2cSMBus (ArgCmd c0 mem) in
    let wire := store mem out in
    let tr2 := tr1 ++ [smbus_event c c0 mem e1 out] in
    if e1 =? 0
    then (Done None,
          World k2 (poke (heap w ++ [wire]) (Pointer (base buf) (off buf))
                      (take n (drop 1 wire))) tr2)
    else (Done (Some (Errno e1)), World k2 (heap w ++ [wire]) tr2)
  else (Done (Some (Errno e0)), World k1 (heap w) tr1).
Proof.
  intros Hn. unfold Conn.ReadBlockData.
  rewrite too_long_false by done.
  rewrite bind_run, addr_run.
  destruct (sys_ioctl _ _ _ _) as [[k1 e0] o0].
  unfold errno_error. destruct (e0 =? 0) eqn:He0; [|done].
  change (Z.to_nat (i2cSMBusBlockMax + 2)) with 34%nat.
  rewrite bind_run, make_run by lia.
  rewrite bind_run, set_index_run by (cbn [slen]; lia).
  rewrite bind_run, addr_of_run by (cbn [slen]; lia).
  cbn [kern heap trace base off slen sroom pbase poff].
  change (0 + 0)%nat with 0%nat.
  rewrite (poke_fresh (heap w) (replicate 34 x00)), zero_block_head.
  rewrite bind_run, ioctl_cmd_run.
  cbn [kern heap trace ptr]. cbv zeta.
  rewrite deref_fresh.
  change (byte_of_int (Z.of_nat (slen buf)) :: replicate 33 x00)
    with (block_image (slen buf) []).
  fold (block_cmd i2cSMBusRead reg (length (heap w))).
  destruct (sys_ioctl _ _ _ _) as [[k2 e1] out].
  rewrite (poke_fresh (heap w) (block_image _ _)), take_0, drop_0. simpl app at 1.
  unfold errno_error. destruct (e1 =? 0) eqn:He1; [|done].
  rewrite bind_run, reslice_run by (unfold scap; lia).
  rewrite bind_run, reslice_run by (unfold scap; cbn [slen sroom]; lia).
  rewrite bind_run. unfold copy, ret.
  cbn [kern heap trace base off slen sroom pbase poff].
  rewrite Nat.add_0_r, Nat.sub_0_r.
  replace (slen buf + 1 - 1)%nat with (slen buf) by lia.
  rewrite Nat.min_id.
  unfold elems at 1. cbn [base off slen].
  change (0 + 1)%nat with 1%nat.
  unfold deref at 1. cbn [pbase poff].
  rewrite list_lookup_middle by done. cbn [default from_option id].
  by rewrite take_take, Nat.min_id.
Qed.
End Run.

(** ** What a register operation sends to the kernel *)

Lemma call_shape_weaken (c : Conn) (a : byte) (P Q : i2cCmd -> list byte -> Prop)
    (evs : list event) :
  (forall c0 mem, P c0 mem -> Q c0 mem) ->
  call_shape c a P evs -> call_shape c a Q evs.
Proof.
  intros HPQ [e0 He0|c0 mem e1 after HP]; constructor; auto.
Qed.

Lemma emitted_app {K} (k k' : K) (h h' : list (list byte)) (tr evs : list event) :
  emitted (World k h tr) (World k' h' (tr ++ evs)) = evs.
Proof. unfold emitted. simpl. by rewrite drop_app_length. Qed.

Lemma emitted_self {K} (w : world K) : emitted w w = [].
Proof. unfold emitted. by rewrite drop_all. Qed.

Lemma wire_buffer_block_image (n : nat) (payload : list byte) :
  (n <= 255)%nat -> length payload = n ->
  wire_buffer (block_image n payload) = byte_of_int (Z.of_nat n) :: payload.
Proof.
  intros Hn Hp. unfold wire_buffer, block_image.
  cbn [nth]. rewrite int_of_byte_of_int by lia.
  rewrite Nat2Z.id. cbn [take].
  f_equal. by rewrite take_app_length'.
Qed.

Section Blocks.
Context {K : Type} {HK : Kernel K}.
Implicit Types (c : Conn) (addr reg : byte) (buf : slice) (w : world K).

(** C1.  A buffer of more than 32 bytes makes [ReadBlockData] and
    [WriteBlockData] return [errSMBusBlockDataMax] in an unchanged world:
    no system call is logged, neither an address select nor a
    transaction, and a transaction counter that stood at zero stays at
    zero. *)
Theorem block_too_long_no_io c addr reg buf w :
  (32 < slen buf)%nat ->
  Conn.ReadBlockData c addr reg buf w = (Done (Some errSMBusBlockDataMax), w) /\
  Conn.WriteBlockData c addr reg buf w = (Done (Some errSMBusBlockDataMax), w) /\
  emitted w (snd (Conn.ReadBlockData c addr reg buf w)) = [] /\
  emitted w (snd (Conn.WriteBlockData c addr reg buf w)) = [] /\
  (ioctl_count (trace w) = 0%nat ->
   ioctl_count (trace (snd (Conn.ReadBlockData c addr reg buf w))) = 0%nat /\
   ioctl_count (trace (snd (Conn.WriteBlockData c addr reg buf w))) = 0%nat).
Proof.
  intros Hlen.
  rewrite ReadBlockData_too_long, WriteBlockData_too_long by done.
  cbn [snd]. rewrite emitted_self. by repeat split.
Qed.

(** C2.  For a buffer of 1 to 32 bytes, the one transaction that
    [WriteBlockData] hands to the kernel, once its address select is
    accepted, is a write of size class [i2cSMBusI2CBlockData] on
    register [reg] whose memory starts with the wire buffer
    [byte(len(buf)), buf[0], ..., buf[len(buf)-1]], of [len(buf)+1]
    bytes; the unused capacity after it is zero. *)
Theorem WriteBlockData_wire c addr reg buf w :
  (1 <= slen buf <= 32)%nat ->
  wf_slice (heap w) buf ->
  call_shape c addr
    (fun q mem =>
       rw q = i2cSMBusWrite /\ cmd q = reg /\ len q = i2cSMBusI2CBlockData /\
       wire_buffer mem = byte_of_int (Z.of_nat (slen buf)) :: elems (heap w) buf /\
       length (wire_buffer mem) = (slen buf + 1)%nat /\
       int_of_byte (nth 0 mem x00) = Z.of_nat (slen buf) /\
       mem = wire_buffer mem ++ replicate (33 - slen buf) x00)
    (emitted w (snd (Conn.WriteBlockData c addr reg buf w))).
Proof.
  intros Hn Hwf.
  rewrite WriteBlockData_run by lia.
  destruct (sys_ioctl _ _ _ _) as [[k1 e0] o0].
  destruct (Z.eqb_spec e0 0) as [->|Hne].
  - cbv zeta. destruct (sys_ioctl _ _ _ _) as [[k2 e1] out].
    cbn [snd]. destruct w as [k h tr]. cbn [heap trace kern].
    rewrite <- app_assoc, emitted_app. cbn [app].
    apply shape_issued.
    cbn [heap] in Hwf.
    rewrite elems_old by done.
    pose proof (length_elems _ _ Hwf) as Hl.
    rewrite wire_buffer_block_image by lia.
    repeat split.
    + cbn [length]. lia.
    + unfold block_image. cbn [nth]. apply int_of_byte_of_int. lia.
    + unfold block_image. by rewrite Hl.
  - cbn [snd]. destruct w as [k h tr]. cbn [heap trace kern].
    rewrite emitted_app. by apply shape_refused.
Qed.

(** C3.  For a buffer of 1 to 32 bytes, a [ReadBlockData] that returns
    [nil] has issued one successful transaction, and [buf] then holds
    exactly [len(buf)] bytes: the bytes at positions 1 to [len(buf)] of
    the memory the kernel left behind.  Position 0, the length byte, is
    not copied. *)
Theorem ReadBlockData_payload c addr reg buf w w' :
  (1 <= slen buf <= 32)%nat ->
  wf_slice (heap w) buf ->
  Conn.ReadBlockData c addr reg buf w = (Done None, w') ->
  exists (q : i2cCmd) (mem wire : list byte),
    emitted w w' =
      [select_event c addr 0; EvIoctl (Fd (f c)) i2cSMBus (ArgCmd q mem) 0 wire] /\
    rw q = i2cSMBusRead /\ cmd q = reg /\
    length wire = 34%nat /\
    elems (heap w') buf = take (slen buf) (drop 1 wire) /\
    length (elems (heap w') buf) = slen buf /\
    (forall i, (i < slen buf)%nat -> elems (heap w') buf !! i = wire !! S i).
Proof.
  intros Hn Hwf. rewrite ReadBlockData_run by lia.
  destruct (sys_ioctl _ _ _ _) as [[k1 e0] o0].
  destruct (Z.eqb_spec e0 0) as [->|Hne]; [|done].
  cbv zeta. destruct (sys_ioctl _ _ _ _) as [[k2 e1] out].
  destruct (Z.eqb_spec e1 0) as [->|Hne]; [|done].
  intros [= <-].
  set (mem := block_image (slen buf) []).
  set (wire := store mem out).
  assert (Hwire : length wire = 34%nat).
  { unfold wire. rewrite length_store. by apply length_block_image; simpl; lia. }
  assert (Hbuf : elems (poke (heap w ++ [wire]) (Pointer (base buf) (off buf))
                          (take (slen buf) (drop 1 wire))) buf
                 = take (slen buf) (drop 1 wire)).
  { apply elems_poke; [by apply wf_slice_app|].
    rewrite length_take, length_drop. lia. }
  exists (block_cmd i2cSMBusRead reg (length (heap w))), mem, wire.
  destruct w as [k h tr]. cbn [heap trace kern] in *.
  rewrite <- app_assoc, emitted_app. unfold smbus_event. fold wire.
  rewrite Hbuf. repeat split; try done.
  - rewrite length_take, length_drop. lia.
  - intros i Hi. rewrite lookup_take_lt by done. by rewrite lookup_drop.
Qed.

(** C6.  A [ReadBlockData] that returns an error has written no byte of
    [buf], nor of any other memory that was allocated before the call;
    and when its transaction ioctl fails with error number [e1], that
    error is what it returns. *)
Theorem ReadBlockData_failure_keeps_buf c addr reg buf w r w' :
  wf_slice (heap w) buf ->
  Conn.ReadBlockData c addr reg buf w = (r, w') ->
  (forall e, r = Done (Some e) ->
     elems (heap w') buf = elems (heap w) buf /\
     take (length (heap w)) (heap w') = heap w) /\
  (forall fd q mem e1 after,
     EvIoctl fd i2cSMBus (ArgCmd q mem) e1 after ∈ emitted w w' -> e1 <> 0 ->
     r = Done (Some (Errno e1)) /\
     elems (heap w') buf = elems (heap w) buf).
Proof.
  intros Hwf Hrun.
  destruct (Nat.le_gt_cases (slen buf) 32) as [Hn|Hn].
  - rewrite ReadBlockData_run in Hrun by lia.
    destruct (sys_ioctl _ _ _ _) as [[k1 e0] o0].
    destruct w as [k h tr]. cbn [heap trace kern] in *.
    destruct (Z.eqb_spec e0 0) as [->|Hne0].
    + cbv zeta in Hrun. destruct (sys_ioctl _ _ _ _) as [[k2 e1] out].
      destruct (Z.eqb_spec e1 0) as [->|Hne1]; injection Hrun as <- <-;
        cbn [heap trace].
      * split; [done|]. intros fd q mem e1 after Hin Hne.
        rewrite <- app_assoc, emitted_app in Hin.
        apply elem_of_cons in Hin as [[=]|Hin].
        apply list_elem_of_singleton in Hin. unfold smbus_event in Hin. by simplify_eq.
      * rewrite <- app_assoc, emitted_app.
        assert (Hsame : elems (h ++ [store (block_image (slen buf) []) out]) buf
                        = elems h buf) by by apply elems_old.
        split.
        -- intros e _. split; [done|]. by rewrite take_app_length.
        -- intros fd q mem e1' after Hin Hne.
           apply elem_of_cons in Hin as [[=]|Hin].
           apply list_elem_of_singleton in Hin. unfold smbus_event in Hin. by simplify_eq.
    + injection Hrun as <- <-. cbn [heap trace]. rewrite emitted_app.
      split.
      * intros e _. split; [done|]. by rewrite take_ge.
      * intros fd q mem e1 after Hin Hne.
        apply list_elem_of_singleton in Hin. done.
  - rewrite ReadBlockData_too_long in Hrun by done. injection Hrun as <- <-. rewrite emitted_self.
    split.
    + intros e _. split; [done|]. by rewrite take_ge.
    + intros fd q mem e1 after Hin. by apply elem_of_nil in Hin.
Qed.

(** C8.  With an empty buffer, neither [ReadBlockData] nor
    [WriteBlockData] returns [errSMBusBlockDataMax]: the length check
    passes, the address is selected, and the transaction then issued
    has the one-byte wire buffer [0x00], a zero length byte and no
    payload, in an otherwise zero transfer memory. *)
Theorem empty_block_is_sent c addr reg buf w :
  slen buf = 0%nat ->
  fst (Conn.ReadBlockData c addr reg buf w) <> Done (Some errSMBusBlockDataMax) /\
  fst (Conn.WriteBlockData c addr reg buf w) <> Done (Some errSMBusBlockDataMax) /\
  call_shape c addr
    (fun q mem => rw q = i2cSMBusRead /\ cmd q = reg /\
                  wire_buffer mem = [x00] /\ mem = replicate 34 x00)
    (emitted w (snd (Conn.ReadBlockData c addr reg buf w))) /\
  call_shape c addr
    (fun q mem => rw q = i2cSMBusWrite /\ cmd q = reg /\
                  wire_buffer mem = [x00] /\ mem = replicate 34 x00)
    (emitted w (snd (Conn.WriteBlockData c addr reg buf w))).
Proof.
  intros Hn.
  rewrite ReadBlockData_run, WriteBlockData_run by lia.
  destruct (sys_ioctl _ _ _ _) as [[k1 e0] o0].
  destruct w as [k h tr]. cbn [heap trace kern].
  rewrite (elems_empty _ buf Hn), Hn.
  change (block_image 0 []) with (replicate 34 x00).
  destruct (Z.eqb_spec e0 0) as [->|Hne0].
  - cbv zeta.
    destruct (sys_ioctl k1 _ _ (ArgCmd (block_cmd i2cSMBusRead _ _) _))
      as [[k2 e1] out].
    destruct (sys_ioctl k1 _ _ (ArgCmd (block_cmd i2cSMBusWrite _ _) _))
      as [[k3 e2] out'].
    unfold errno_error.
    destruct (e1 =? 0), (e2 =? 0); cbn [fst snd];
      rewrite <- !app_assoc, !emitted_app;
      (split; [done|]); (split; [done|]);
      split; by apply shape_issued.
  - cbn [fst snd]. rewrite emitted_app.
    split; [done|]. split; [done|]. split; by apply shape_refused.
Qed.

(** C10.  [WriteBlockData] leaves the bytes of [buf] as they were, on
    every path: memory allocated before the call is unchanged, and the
    memory a transaction points to is an allocation made by the call. *)
Theorem WriteBlockData_keeps_buf c addr reg buf w :
  wf_slice (heap w) buf ->
  elems (heap (snd (Conn.WriteBlockData c addr reg buf w))) buf = elems (heap w) buf /\
  take (length (heap w)) (heap (snd (Conn.WriteBlockData c addr reg buf w))) = heap w /\
  (forall fd req q mem e1 after,
     EvIoctl fd req (ArgCmd q mem) e1 after
       ∈ emitted w (snd (Conn.WriteBlockData c addr reg buf w)) ->
     pbase (ptr q) = length (heap w) /\ heap w !! pbase (ptr q) = None).
Proof.
  intros Hwf.
  destruct (Nat.le_gt_cases (slen buf) 32) as [Hn|Hn].
  - rewrite WriteBlockData_run by lia.
    destruct (sys_ioctl _ _ _ _) as [[k1 e0] o0].
    destruct w as [k h tr]. cbn [heap trace kern] in *.
    destruct (e0 =? 0).
    + cbv zeta. destruct (sys_ioctl _ _ _ _) as [[k2 e1] out].
      cbn [snd heap]. rewrite <- app_assoc, emitted_app.
      split; [by apply elems_old|]. split; [by rewrite take_app_length|].
      intros fd req q mem e1' after Hin.
      apply elem_of_cons in Hin as [[=]|Hin].
      apply list_elem_of_singleton in Hin. unfold smbus_event in Hin.
      simplify_eq. cbn [ptr block_cmd pbase].
      split; [done|]. by apply lookup_ge_None.
    + cbn [snd heap]. rewrite emitted_app.
      split; [done|]. split; [by rewrite take_ge|].
      intros fd req q mem e1' after Hin.
      by apply list_elem_of_singleton in Hin.
  - rewrite WriteBlockData_too_long by done. cbn [snd]. rewrite emitted_self.
    split; [done|]. split; [by rewrite take_ge|].
    intros fd req q mem e1' after Hin. by apply elem_of_nil in Hin.
Qed.
End Blocks.

(** ** Write, then read, against the kernel that stores block writes *)

Section Echo.
Implicit Types (k : echo_state) (w : world echo_state).

Lemma store_cons (x y : byte) (old new : list byte) :
  store (x :: old) (y :: new) = y :: store old new.
Proof. reflexivity. Qed.

Lemma block_image_head (n : nat) (payload : list byte) :
  (n <= 255)%nat ->
  Z.to_nat (int_of_byte (nth 0 (block_image n payload) x00)) = n.
Proof.
  intros Hn. unfold block_image. cbn [nth].
  rewrite int_of_byte_of_int by lia. apply Nat2Z.id.
Qed.

Lemma echo_block_extent (n : nat) (payload : list byte) :
  (n <= 255)%nat ->
  payload_extent i2cSMBusI2CBlockData (block_image n payload) = Some (1%nat, n).
Proof.
  intros Hn. unfold payload_extent.
  change (i2cSMBusI2CBlockData =? i2cSMBusByteData) with false.
  change (i2cSMBusI2CBlockData =? i2cSMBusWordData) with false.
  change ((i2cSMBusI2CBlockData =? i2cSMBusBlockData)
          || (i2cSMBusI2CBlockData =? i2cSMBusI2CBlockData)) with true.
  cbv iota. by rewrite block_image_head.
Qed.

Lemma echo_select k (fd a : Z) :
  echo_ioctl k fd i2cSlave (ArgVal a)
  = (EchoState (devs k) (next_fd k) (<[fd := a]> (bound k)) (regs k), 0, []).
Proof. reflexivity. Qed.

Lemma echo_block_write k (fd a : Z) (reg : byte) (l n : nat) (payload : list byte) :
  bound k !! fd = Some a -> (n <= 255)%nat -> length payload = n ->
  echo_ioctl k fd i2cSMBus
    (ArgCmd (block_cmd i2cSMBusWrite reg l) (block_image n payload))
  = (EchoState (devs k) (next_fd k) (bound k)
       (<[(a, int_of_byte reg) := payload]> (regs k)), 0, []).
Proof.
  intros Hb Hn Hp. unfold echo_ioctl.
  change (negb (i2cSMBus =? i2cSMBus)) with false. cbv iota.
  rewrite Hb. unfold block_cmd. cbn [len rw cmd].
  rewrite echo_block_extent by done.
  change (Byte.eqb i2cSMBusWrite i2cSMBusWrite) with true. cbv iota.
  unfold block_image. cbn [skipn]. by rewrite drop_0, take_app_length'.
Qed.

Lemma echo_block_read k (fd a : Z) (reg : byte) (l n : nat) (p : list byte) :
  bound k !! fd = Some a -> regs k !! (a, int_of_byte reg) = Some p ->
  (n <= 255)%nat ->
  echo_ioctl k fd i2cSMBus
    (ArgCmd (block_cmd i2cSMBusRead reg l) (block_image n []))
  = (k, 0, byte_of_int (Z.of_nat n) :: take n p).
Proof.
  intros Hb Hr Hn. unfold echo_ioctl.
  change (negb (i2cSMBus =? i2cSMBus)) with false. cbv iota.
  rewrite Hb. unfold block_cmd. cbn [len rw cmd].
  rewrite echo_block_extent by done.
  change (Byte.eqb i2cSMBusRead i2cSMBusWrite) with false. cbv iota.
  by rewrite Hr.
Qed.

(** C4.  Against the kernel that stores block writes per (address,
    register) and replays them on block reads: for a payload [p] of 1 to
    32 bytes and a buffer [buf] of the same length, [WriteBlockData]
    followed by [ReadBlockData] on the same address and register both
    return [nil], and [buf] then holds the bytes of [p]. *)
Theorem block_round_trip (c : Conn) (addr reg : byte) (p buf : slice) w :
  (1 <= slen p <= 32)%nat ->
  slen buf = slen p ->
  wf_slice (heap w) p ->
  wf_slice (heap w) buf ->
  exists w1 w2,
    Conn.WriteBlockData c addr reg p w = (Done None, w1) /\
    Conn.ReadBlockData c addr reg buf w1 = (Done None, w2) /\
    elems (heap w2) buf = elems (heap w) p.
Proof.
  intros Hn Hlen Hp Hbuf.
  pose proof (length_elems _ _ Hp) as Hpl.
  rewrite WriteBlockData_run by lia.
  destruct w as [k h tr]. cbn [heap trace kern] in *.
  cbn [sys_ioctl echo_kernel].
  rewrite echo_select. cbv iota beta zeta. change (0 =? 0) with true. cbv iota.
  rewrite (elems_old h _ p Hp).
  rewrite (echo_block_write _ _ (int_of_byte addr))
    by (cbn [bound]; first [apply lookup_insert_eq | lia | done]).
  cbv iota beta. change (errno_error 0) with (@None error).
  cbn [devs next_fd bound regs].
  eexists _, _. split; [reflexivity|].
  rewrite ReadBlockData_run by lia.
  cbn [heap trace kern sys_ioctl echo_kernel].
  rewrite echo_select. cbv iota beta zeta. change (0 =? 0) with true. cbv iota.
  cbn [devs next_fd bound regs].
  rewrite (echo_block_read _ _ (int_of_byte addr) _ _ _ (elems h p))
    by (cbn [bound regs]; first [apply lookup_insert_eq | lia]).
  cbv iota beta. change (0 =? 0) with true. cbv iota.
  split; [reflexivity|]. cbn [heap].
  rewrite Hlen, (take_ge (elems h p)) by lia.
  change (block_image (slen p) [])
    with (byte_of_int (Z.of_nat (slen p)) :: replicate 33 x00).
  rewrite store_cons, store_zeros by lia.
  cbn [skipn]. rewrite drop_0, take_app_length' by lia.
  apply elems_poke; [by do 2 apply wf_slice_app|lia].
Qed.
End Echo.

(** ** Address selection and routing *)

Lemma selected_from_app (sel : gmap Z Z) (tr evs : list event) :
  selected_from sel (tr ++ evs) = selected_from (selected_from sel tr) evs.
Proof. apply fold_left_app. Qed.

Lemma targets_from_app (sel : gmap Z Z) (tr evs : list event) :
  targets_from sel (tr ++ evs)
  = targets_from sel tr ++ targets_from (selected_from sel tr) evs.
Proof.
  revert sel. induction tr as [|ev tr IH]; intros sel; [done|].
  cbn [app targets_from]. rewrite IH. by rewrite <- app_assoc.
Qed.

Lemma open_fds_app (tr evs : list event) :
  open_fds (tr ++ evs) = fold_left open_step evs (open_fds tr).
Proof. apply fold_left_app. Qed.

(** A transaction that directly follows an accepted select goes to the
    selected address, whatever was selected before. *)
Lemma call_shape_targets (c : Conn) (a : byte) (P : i2cCmd -> list byte -> Prop)
    (evs : list event) (sel : gmap Z Z) :
  call_shape c a P evs ->
  targets_from sel evs
  = (fun _ => (Fd (f c), Some (int_of_byte a))) <$> filter (fun ev => is_transaction ev = true) evs.
Proof.
  intros [e0 He0|c0 mem e1 after HP].
  - reflexivity.
  - unfold select_event. cbn [targets_from is_transaction sel_step].
    change (i2cSlave =? i2cSMBus) with false.
    change (i2cSMBus =? i2cSMBus) with true.
    change ((i2cSlave =? i2cSlave) && (0 =? 0)) with true.
    cbv iota. rewrite lookup_insert_eq.
    rewrite filter_cons_False by done.
    by rewrite filter_cons_True by done.
Qed.

Lemma call_shape_count (c : Conn) (a : byte) (P : i2cCmd -> list byte -> Prop)
    (evs : list event) :
  call_shape c a P evs ->
  length (filter (fun ev => is_select ev = true) evs) = 1%nat /\
  (transaction_count evs <= 1)%nat /\
  head evs = Some (select_event c a (match evs with
                                     | EvIoctl _ _ _ e0 _ :: _ => e0
                                     | _ => 0
                                     end)).
Proof.
  intros [e0 He0|c0 mem e1 after HP].
  - split; [done|]. split; [|done]. unfold transaction_count. simpl. lia.
  - split; [done|]. split; [|done]. unfold transaction_count. simpl. lia.
Qed.

Section Routing.
Context {K : Type} {HK : Kernel K}.
Implicit Types (c : Conn) (w : world K).

Lemma new_var_run (init : list byte) w :
  new_var init w
  = (Done (Pointer (length (heap w)) 0),
     World (kern w) (heap w ++ [init]) (trace w)).
Proof. reflexivity. Qed.

Lemma SetAddr_trace c (a : byte) w :
  exists e0, trace (snd (Conn.SetAddr c a w)) = trace w ++ [select_event c a e0] /\
             fst (Conn.SetAddr c a w) = Done (errno_error e0).
Proof.
  unfold Conn.SetAddr. rewrite addr_run.
  destruct (sys_ioctl _ _ _ _) as [[k1 e0] o0]. by exists e0.
Qed.

(** Run the select of a byte or word operation, then its transaction. *)
Ltac run_value_op :=
  rewrite ?bind_run, addr_run;
  destruct (sys_ioctl _ _ _ _) as [[k1 e0] o0];
  unfold errno_error at 1;
  destruct (Z.eqb_spec e0 0) as [->|Hne];
  [ rewrite ?bind_run, new_var_run, ?bind_run, ioctl_cmd_run; cbv zeta;
    destruct (sys_ioctl _ _ _ _) as [[k2 e1] out];
    eexists; split;
    [ cbn [snd trace bind load ret]; by rewrite <- app_assoc
    | by apply shape_issued ]
  | eexists; split; [done | by apply shape_refused] ].

Lemma run_op_trace c (op : regop) w :
  exists evs,
    trace (snd (run_op c op w)) = trace w ++ evs /\
    if op_too_long op then evs = []
    else call_shape c (op_addr op) (fun q _ => cmd q = op_reg op) evs.
Proof.
  destruct op as [a r|a r v|a r|a r v|a r buf|a r buf];
    cbn [run_op op_too_long op_addr op_reg].
  - unfold Conn.ReadReg. run_value_op.
  - unfold Conn.WriteReg. run_value_op.
  - unfold Conn.ReadWord. run_value_op.
  - unfold Conn.WriteWord. run_value_op.
  - destruct (Z.gtb_spec (Z.of_nat (slen buf)) i2cSMBusBlockMax) as [Hn|Hn].
    + rewrite ReadBlockData_too_long by (unfold i2cSMBusBlockMax in Hn; lia).
      exists []. by rewrite app_nil_r.
    + rewrite ReadBlockData_run by (unfold i2cSMBusBlockMax in Hn; lia).
      destruct (sys_ioctl _ _ _ _) as [[k1 e0] o0].
      destruct (Z.eqb_spec e0 0) as [->|Hne].
      * cbv zeta. destruct (sys_ioctl _ _ _ _) as [[k2 e1] out].
        eexists; split;
          [ destruct (e1 =? 0); cbn [snd trace]; by rewrite <- app_assoc
          | by apply shape_issued ].
      * eexists; split; [done | by apply shape_refused].
  - destruct (Z.gtb_spec (Z.of_nat (slen buf)) i2cSMBusBlockMax) as [Hn|Hn].
    + rewrite WriteBlockData_too_long by (unfold i2cSMBusBlockMax in Hn; lia).
      exists []. by rewrite app_nil_r.
    + rewrite WriteBlockData_run by (unfold i2cSMBusBlockMax in Hn; lia).
      destruct (sys_ioctl _ _ _ _) as [[k1 e0] o0].
      destruct (Z.eqb_spec e0 0) as [->|Hne].
      * cbv zeta. destruct (sys_ioctl _ _ _ _) as [[k2 e1] out].
        eexists; split;
          [ cbn [snd trace]; by rewrite <- app_assoc
          | by apply shape_issued ].
      * eexists; split; [done | by apply shape_refused].
Qed.

Lemma trace_emitted w w' (evs : list event) :
  trace w' = trace w ++ evs -> emitted w w' = evs.
Proof. intros E. unfold emitted. by rewrite E, drop_app_length. Qed.


(** C5.  Each of the six register operations, unless a block buffer is
    too long, first issues the address select for its [addr] and then,
    once the select is accepted, exactly one transaction ioctl and
    nothing else.  So every transaction it adds to the log goes to
    [addr], the address selected immediately before it; this also holds
    when another address [a1] was selected just before the call: after
    the two consecutive selects the transaction goes to the second
    address only. *)
Theorem register_op_routing c (op : regop) (a1 : byte) w :
  let fd := Fd (f c) in
  let a := int_of_byte (op_addr op) in
  let w' := snd (run_op c op w) in
  let w1 := snd (Conn.SetAddr c a1 w) in
  let w2 := snd (run_op c op w1) in
  (if op_too_long op then emitted w w' = []
   else call_shape c (op_addr op) (fun q _ => cmd q = op_reg op) (emitted w w')) /\
  (transaction_count (emitted w w') <= 1)%nat /\
  targets (trace w')
  = targets (trace w)
    ++ ((fun _ => (fd, Some a)) <$> filter (fun ev => is_transaction ev = true) (emitted w w')) /\
  targets (trace w2)
  = targets (trace w)
    ++ ((fun _ => (fd, Some a)) <$> filter (fun ev => is_transaction ev = true) (emitted w1 w2)).
Proof.
  intros fd a w' w1 w2.
  assert (Hgen : forall w0,
    targets (trace (snd (run_op c op w0)))
    = targets (trace w0)
      ++ ((fun _ => (fd, Some a)) <$>
            filter (fun ev => is_transaction ev = true)
              (emitted w0 (snd (run_op c op w0))))).
  { intros w0. destruct (run_op_trace c op w0) as (evs & Htr & Hshape).
    rewrite (trace_emitted _ _ _ Htr), Htr.
    unfold targets. rewrite targets_from_app. f_equal.
    destruct (op_too_long op); [by subst evs|].
    by eapply call_shape_targets. }
  destruct (run_op_trace c op w) as (evs & Htr & Hshape).
  fold w' in Htr. rewrite (trace_emitted _ _ _ Htr).
  split; [done|]. split.
  { destruct (op_too_long op);
      [subst evs; unfold transaction_count; simpl; lia|].
    by apply call_shape_count in Hshape as (_ & ? & _). }
  split.
  { specialize (Hgen w). fold w' in Hgen.
    by rewrite (trace_emitted _ _ _ Htr) in Hgen. }
  unfold w2. rewrite Hgen. f_equal.
  destruct (SetAddr_trace c a1 w) as (e0 & Hsel & _). fold w1 in Hsel.
  rewrite Hsel. unfold targets. rewrite targets_from_app.
  unfold select_event. cbn [targets_from is_transaction].
  change (i2cSlave =? i2cSMBus) with false. cbv iota.
  by rewrite !app_nil_r.
Qed.

End Routing.

(** ** Opening a connection *)

Section Opening.
Context {K : Type} {HK : Kernel K}.
Implicit Types (w : world K).

(** C9.  When the device file opens and the address select inside
    [Open] is then refused, [Open] returns a nil handle and that error
    without closing the file: the log shows the open and the select, no
    close, and the descriptor is still among the open ones. *)
Theorem Open_select_failure_leaks_file (bus : Z) (addr : byte) w
    (k1 k2 : K) (fd e1 : Z) (out : list byte) :
  sys_open (kern w) (dev_path bus) O_RDWR perm0600 = (k1, inl fd) ->
  sys_ioctl k1 fd i2cSlave (ArgVal (int_of_byte addr)) = (k2, e1, out) ->
  e1 <> 0 ->
  fst (Open bus addr w) = Done (None, Some (Errno e1)) /\
  emitted w (snd (Open bus addr w))
  = [EvOpen (dev_path bus) O_RDWR perm0600 (inl fd);
     EvIoctl fd i2cSlave (ArgVal (int_of_byte addr)) e1 []] /\
  filter (fun ev => is_close ev = true) (emitted w (snd (Open bus addr w))) = [] /\
  kern (snd (Open bus addr w)) = k2 /\
  fd ∈ open_fds (trace (snd (Open bus addr w))).
Proof.
  intros Hopen Hsel Hne.
  unfold Open. rewrite bind_run. unfold os_OpenFile. rewrite Hopen.
  rewrite bind_run. unfold ioctl. rewrite bind_run.
  unfold Syscall6_ioctl. cbn [kern heap trace Fd]. rewrite Hsel.
  unfold ret. destruct (Z.eqb_spec e1 0) as [?|_]; [done|].
  cbn [fst snd kern trace].
  destruct w as [k h tr]. cbn [trace].
  rewrite <- app_assoc. cbn [app]. rewrite emitted_app.
  repeat split; try done.
  rewrite open_fds_app. cbn [fold_left open_step]. set_solver.
Qed.


(** X23.  [Open bus addr], the open that takes an address as well, opens
    the same device file as [OpenFile bus] and fails like it when the
    file cannot be opened, nothing else being asked of the kernel.  On
    success of the open it issues the select for [addr]: it returns a
    handle with [addr] selected, or, when the select is refused, a nil
    handle and that error. *)
Theorem Open_and_OpenFile (bus : Z) (addr : byte) w :
  let path := dev_path bus in
  match sys_open (kern w) path O_RDWR perm0600 with
  | (k1, inr e) =>
      let w1 := World k1 (heap w) (trace w ++ [EvOpen path O_RDWR perm0600 (inr e)]) in
      OpenFile bus w = (Done (None, Some (PathError "open" path e)), w1) /\
      Open bus addr w = (Done (None, Some (PathError "open" path e)), w1)
  | (k1, inl fd) =>
      let c := MkConn (MkFile fd path) in
      let w1 := World k1 (heap w) (trace w ++ [EvOpen path O_RDWR perm0600 (inl fd)]) in
      OpenFile bus w = (Done (Some c, None), w1) /\
      selected (trace w1) !! fd = None /\
      let '(k2, e1, _) := sys_ioctl k1 fd i2cSlave (ArgVal (int_of_byte addr)) in
      let w2 := World k2 (heap w) (trace w1 ++ [select_event c addr e1]) in
      Open bus addr w
      = (Done (if e1 =? 0 then (Some c, None) else (None, Some (Errno e1))), w2) /\
      selected (trace w2) !! fd
      = if e1 =? 0 then Some (int_of_byte addr) else None
  end.
Proof.
  intros path. unfold OpenFile, Open.
  rewrite !bind_run. unfold os_OpenFile. fold path.
  destruct (sys_open _ _ _ _) as [k1 [fd|e]]; [|done].
  split; [done|].
  assert (Hnone : selected (trace w ++ [EvOpen path O_RDWR perm0600 (inl fd)]) !! fd
                  = None).
  { unfold selected. rewrite selected_from_app.
    cbn [selected_from fold_left sel_step]. apply lookup_delete_eq. }
  split; [done|].
  rewrite bind_run. unfold ioctl. rewrite bind_run.
  unfold Syscall6_ioctl. cbn [kern heap trace Fd].
  destruct (sys_ioctl _ _ _ _) as [[k2 e1] out].
  unfold ret, select_event. cbn [f Fd].
  split; [by destruct (e1 =? 0)|].
  cbn [trace]. unfold selected in *. rewrite selected_from_app.
  cbn [selected_from fold_left sel_step].
  change (i2cSlave =? i2cSlave) with true. cbn [andb].
  destruct (e1 =? 0); [apply lookup_insert_eq|done].
Qed.
End Opening.

(** ** The scenarios of the design document, run on the simulated kernels *)

Lemma wf_payload4 : wf_slice (heap world0) payload4.
Proof. exists [xde; xad; xbe; xef]. split; [reflexivity | simpl; lia]. Defined.

Lemma wf_buffer4 (h : list (list byte)) :
  wf_slice (heap0 ++ h) buffer4.
Proof.
  exists [xff; xff; xff; xff; xff; xff]. split; [reflexivity | simpl; lia].
Defined.

(** [ReadBlock(h, 0x50, 0x00, 33)]: the error, and no transaction attempt. *)
Lemma block_too_long_no_io_witness :
  (32 < slen buffer33)%nat /\
  Conn.ReadBlockData conn3 x50 x00 buffer33 world33
  = (Done (Some errSMBusBlockDataMax), world33) /\
  ioctl_count (trace (snd (Conn.WriteBlockData conn3 x50 x00 buffer33 world33))) = 0%nat.
Proof.
  assert (H : (32 < slen buffer33)%nat) by (simpl; lia).
  split; [exact H|].
  destruct (block_too_long_no_io conn3 x50 x00 buffer33 world33 H)
    as (Hr & _ & _ & _ & Hc).
  split; [exact Hr|]. apply Hc. reflexivity.
Defined.

(** [WriteBlock(h, 0x50, 0x00, [0xDE,0xAD,0xBE,0xEF])]: the kernel sees
    the five wire bytes [04 DE AD BE EF]. *)
Lemma WriteBlockData_wire_witness :
  (1 <= slen payload4 <= 32)%nat /\
  wf_slice (heap world0) payload4 /\
  call_shape conn3 x50
    (fun q mem => rw q = i2cSMBusWrite /\
                  wire_buffer mem = [x04; xde; xad; xbe; xef])
    (emitted world0 world_written).
Proof.
  assert (H : (1 <= slen payload4 <= 32)%nat) by (simpl; lia).
  split; [exact H|]. split; [exact wf_payload4|].
  eapply call_shape_weaken;
    [|exact (WriteBlockData_wire conn3 x50 x00 payload4 world0 H wf_payload4)].
  intros q mem (Hrw & _ & _ & Hwire & _). split; [exact Hrw | exact Hwire].
Defined.

Lemma ReadBlockData_payload_witness :
  (1 <= slen buffer4 <= 32)%nat /\
  wf_slice (heap world_written) buffer4 /\
  fst (Conn.ReadBlockData conn3 x50 x00 buffer4 world_written) = Done None /\
  elems (heap (snd (Conn.ReadBlockData conn3 x50 x00 buffer4 world_written))) buffer4
  = [xde; xad; xbe; xef].
Proof.
  assert (H : (1 <= slen buffer4 <= 32)%nat) by (simpl; lia).
  assert (Hrun : Conn.ReadBlockData conn3 x50 x00 buffer4 world_written
                 = (Done None,
                    snd (Conn.ReadBlockData conn3 x50 x00 buffer4 world_written)))
    by (vm_compute; reflexivity).
  split; [exact H|]. split; [exact (wf_buffer4 _)|]. split; [vm_compute; reflexivity|].
  destruct (ReadBlockData_payload conn3 x50 x00 buffer4 world_written _
              H (wf_buffer4 _) Hrun)
    as (q & mem & wire & Hev & _ & _ & _ & Hbuf & _).
  rewrite Hbuf. vm_compute in Hev. injection Hev as _ _ <-. reflexivity.
Defined.

Lemma block_round_trip_witness :
  (1 <= slen payload4 <= 32)%nat /\
  slen buffer4 = slen payload4 /\
  exists w1 w2,
    Conn.WriteBlockData conn3 x50 x00 payload4 world0 = (Done None, w1) /\
    Conn.ReadBlockData conn3 x50 x00 buffer4 w1 = (Done None, w2) /\
    elems (heap w2) buffer4 = [xde; xad; xbe; xef].
Proof.
  assert (H : (1 <= slen payload4 <= 32)%nat) by (simpl; lia).
  split; [exact H|]. split; [reflexivity|].
  exact (block_round_trip conn3 x50 x00 payload4 buffer4 world0 H eq_refl
           wf_payload4 (wf_buffer4 [])).
Defined.

(** Nothing was written to the register: the read transaction fails, and
    the buffer keeps its bytes. *)
Lemma ReadBlockData_failure_keeps_buf_witness :
  wf_slice (heap world0) buffer4 /\
  fst (Conn.ReadBlockData conn3 x50 x00 buffer4 world0) = Done (Some (Errno ENXIO)) /\
  elems (heap (snd (Conn.ReadBlockData conn3 x50 x00 buffer4 world0))) buffer4
  = [xff; xff; xff; xff].
Proof.
  split; [exact (wf_buffer4 [])|].
  assert (Hrun : Conn.ReadBlockData conn3 x50 x00 buffer4 world0
                 = (fst (Conn.ReadBlockData conn3 x50 x00 buffer4 world0),
                    snd (Conn.ReadBlockData conn3 x50 x00 buffer4 world0)))
    by (vm_compute; reflexivity).
  destruct (ReadBlockData_failure_keeps_buf conn3 x50 x00 buffer4 world0 _ _
              (wf_buffer4 []) Hrun)
    as (_ & Hfail).
  destruct (Hfail 3 (block_cmd i2cSMBusRead x00 2) (block_image 4 []) ENXIO
              (block_image 4 []))
    as (Hr & Hbuf).
  - vm_compute. apply list_elem_of_further, list_elem_of_here.
  - discriminate.
  - split; [exact Hr|]. rewrite Hbuf. reflexivity.
Defined.

Lemma empty_block_is_sent_witness :
  slen buffer0 = 0%nat /\
  fst (Conn.WriteBlockData conn3 x50 x00 buffer0 world0) = Done None /\
  call_shape conn3 x50 (fun q mem => wire_buffer mem = [x00])
    (emitted world0 (snd (Conn.WriteBlockData conn3 x50 x00 buffer0 world0))).
Proof.
  split; [reflexivity|]. split; [vm_compute; reflexivity|].
  destruct (empty_block_is_sent conn3 x50 x00 buffer0 world0 eq_refl)
    as (_ & _ & _ & Hw).
  eapply call_shape_weaken; [|exact Hw].
  intros q mem (_ & _ & Hwire & _). exact Hwire.
Defined.

Lemma WriteBlockData_keeps_buf_witness :
  wf_slice (heap world0) payload4 /\
  elems (heap world_written) payload4 = [xde; xad; xbe; xef].
Proof.
  split; [exact wf_payload4|].
  destruct (WriteBlockData_keeps_buf conn3 x50 x00 payload4 world0 wf_payload4)
    as (Hbuf & _).
  unfold world_written. rewrite Hbuf. reflexivity.
Defined.

(** The device file opens on the busy bus, the select is refused, and
    descriptor 3 stays open. *)
Lemma Open_select_failure_leaks_file_witness :
  fst (Open (HK := busy_kernel) 1 x50 (boot 3 [])) = Done (None, Some (Errno EBUSY)) /\
  3 ∈ open_fds (trace (snd (Open (HK := busy_kernel) 1 x50 (boot 3 [])))).
Proof.
  assert (Hne : EBUSY <> 0) by discriminate.
  destruct (Open_select_failure_leaks_file (HK := busy_kernel) 1 x50 (boot 3 [])
              4 4 3 EBUSY [] eq_refl eq_refl Hne)
    as (Hr & _ & _ & _ & Hopen).
  split; [exact Hr | exact Hopen].
Defined.

(** [Open(1, 0x69)] on the simulated machine: the handle has address
    0x69 selected; [OpenFile(1)] leaves descriptor 3 unbound. *)
Example Open_binds_OpenFile_does_not :
  selected (trace (snd (Open 1 x69 (boot fresh_echo [])))) !! 3 = Some 0x69 /\
  selected (trace (snd (OpenFile 1 (boot fresh_echo [])))) !! 3 = None.
Proof. split; vm_compute; reflexivity. Qed.

(** The byte and word scenarios against the device that echoes writes. *)
Example byte_register_echo :
  fst ((r <- OpenFile 1 ;;
        match fst r with
        | Some c => Conn.WriteReg c x44 x20 x4b ;; Conn.ReadReg c x44 x20
        | None => ret (x00, None)
        end) (boot fresh_echo []))
  = Done (x4b, None).
Proof. vm_compute. reflexivity. Qed.

Example word_register_echo :
  fst ((r <- OpenFile 1 ;;
        match fst r with
        | Some c => Conn.WriteWord c x44 x20 0xBEEF ;; Conn.ReadWord c x44 x20
        | None => ret (0, None)
        end) (boot fresh_echo []))
  = Done (0xBEEF, None).
Proof. vm_compute. reflexivity. Qed.

(** [SetAddr] for one device, then a write to another: the transaction
    goes to the second. *)
Example two_selects_route_to_second :
  targets (trace (snd ((Conn.SetAddr conn3 x10 ;;
                        Conn.WriteReg conn3 x20 x01 xaa) world0)))
  = [(3, Some 0x20)].
Proof. vm_compute. reflexivity. Qed.

Example open_missing_bus :
  fst (Open 7 x69 (boot fresh_echo []))
  = Done (None, Some (PathError "open" "/dev/i2c-7" ENOENT)).
Proof. vm_compute. reflexivity. Qed.

(** * Further properties of the transport *)

(** ** The byte and word operations *)

Lemma int_of_byte_of_int_mod (z : Z) : int_of_byte (byte_of_int z) = z mod 256.
Proof.
  pose proof (Z.mod_pos_bound z 256 ltac:(lia)) as Hm.
  rewrite <- (int_of_byte_of_int (z mod 256)) by lia.
  unfold byte_of_int. by rewrite Z.mod_mod by lia.
Qed.

Lemma byte_of_int_of_byte (b : byte) : byte_of_int (int_of_byte b) = b.
Proof.
  unfold byte_of_int, int_of_byte.
  pose proof (Byte.to_N_bounded b) as Hb.
  rewrite Z.mod_small by lia. rewrite N2Z.id.
  by rewrite Byte.of_to_N.
Qed.

Lemma int_of_byte_bounds (b : byte) : 0 <= int_of_byte b < 256.
Proof. unfold int_of_byte. pose proof (Byte.to_N_bounded b). lia. Qed.

Lemma uint16_of_bytes_of_uint16 (v : Z) :
  0 <= v < 65536 -> uint16_of_bytes (bytes_of_uint16 v) = v.
Proof.
  intros Hv. unfold uint16_of_bytes, bytes_of_uint16. cbn [nth].
  rewrite !int_of_byte_of_int_mod.
  rewrite (Z.mod_small (v / 256)) by (split; [apply Z.div_pos | apply Z.div_lt_upper_bound]; lia).
  pose proof (Z.div_mod v 256 ltac:(lia)). lia.
Qed.

Section ValueOps.
Context {K : Type} {HK : Kernel K}.
Implicit Types (c : Conn) (addr reg : byte) (w : world K).

(** The transaction of a byte or word operation: a variable holding
    [init], the command pointing to it, one ioctl. *)
Lemma value_txn_run c (init : list byte) (dir reg : byte) (size : Z) w :
  (v <- new_var init ;;
   ioctl (Fd (f c)) i2cSMBus (UCmd (I2cCmd dir reg size v))) w
  = let l := length (heap w) in
    let '(k2, e1, out) :=
      sys_ioctl (kern w) (Fd (f c)) i2cSMBus (ArgCmd (value_cmd dir reg size l) init) in
    (Done (errno_error e1),
     World k2 (heap w ++ [store init out])
       (trace w ++ [smbus_event c (value_cmd dir reg size l) init e1 out])).
Proof.
  rewrite bind_run, new_var_run, ioctl_cmd_run.
  cbn [kern heap trace ptr]. cbv zeta. rewrite deref_fresh.
  fold (value_cmd dir reg size (length (heap w))).
  destruct (sys_ioctl _ _ _ _) as [[k2 e1] out].
  by rewrite (poke_fresh (heap w) init), take_0, drop_0.
Qed.

Lemma value_txn_bind_run {A} c (init : list byte) (dir reg : byte) (size : Z)
    (k : pointer -> option error -> M K A) w :
  (v <- new_var init ;;
   err <- ioctl (Fd (f c)) i2cSMBus (UCmd (I2cCmd dir reg size v)) ;;
   k v err) w
  = let l := length (heap w) in
    let '(k2, e1, out) :=
      sys_ioctl (kern w) (Fd (f c)) i2cSMBus (ArgCmd (value_cmd dir reg size l) init) in
    k (Pointer l 0) (errno_error e1)
      (World k2 (heap w ++ [store init out])
         (trace w ++ [smbus_event c (value_cmd dir reg size l) init e1 out])).
Proof.
  pose proof (value_txn_run c init dir reg size w) as H.
  rewrite bind_run, new_var_run in H. rewrite bind_run, new_var_run, bind_run, H.
  cbv zeta. by destruct (sys_ioctl _ _ _ _) as [[k2 e1] out].
Qed.

Ltac run_select_eq :=
  rewrite bind_run, addr_run;
  destruct (sys_ioctl _ _ _ _) as [[k1 e0] o0];
  unfold errno_error at 1; destruct (e0 =? 0); [|done].

Lemma WriteReg_run c addr reg (v : byte) w :
  Conn.WriteReg c addr reg v w
  = let '(k1, e0, _) := sys_ioctl (kern w) (Fd (f c)) i2cSlave (ArgVal (int_of_byte addr)) in
    let tr1 := trace w ++ [select_event c addr e0] in
    if e0 =? 0 then
      let l := length (heap w) in
      let c0 := value_cmd i2cSMBusWrite reg i2cSMBusByteData l in
      let '(k2, e1, out) := sys_ioctl k1 (Fd (f c)) i2cSMBus (ArgCmd c0 [v]) in
      (Done (errno_error e1),
       World k2 (heap w ++ [store [v] out]) (tr1 ++ [smbus_event c c0 [v] e1 out]))
    else (Done (Some (Errno e0)), World k1 (heap w) tr1).
Proof.
  unfold Conn.WriteReg. run_select_eq. by rewrite value_txn_run.
Qed.

Lemma WriteWord_run c addr reg (v : Z) w :
  Conn.WriteWord c addr reg v w
  = let '(k1, e0, _) := sys_ioctl (kern w) (Fd (f c)) i2cSlave (ArgVal (int_of_byte addr)) in
    let tr1 := trace w ++ [select_event c addr e0] in
    if e0 =? 0 then
      let l := length (heap w) in
      let c0 := value_cmd i2cSMBusWrite reg i2cSMBusWordData l in
      let mem := bytes_of_uint16 v in
      let '(k2, e1, out) := sys_ioctl k1 (Fd (f c)) i2cSMBus (ArgCmd c0 mem) in
      (Done (errno_error e1),
       World k2 (heap w ++ [store mem out]) (tr1 ++ [smbus_event c c0 mem e1 out]))
    else (Done (Some (Errno e0)), World k1 (heap w) tr1).
Proof.
  unfold Conn.WriteWord. run_select_eq. by rewrite value_txn_run.
Qed.

Lemma ReadReg_run c addr reg w :
  Conn.ReadReg c addr reg w
  = let '(k1, e0, _) := sys_ioctl (kern w) (Fd (f c)) i2cSlave (ArgVal (int_of_byte addr)) in
    let tr1 := trace w ++ [select_event c addr e0] in
    if e0 =? 0 then
      let l := length (heap w) in
      let c0 := value_cmd i2cSMBusRead reg i2cSMBusByteData l in
      let '(k2, e1, out) := sys_ioctl k1 (Fd (f c)) i2cSMBus (ArgCmd c0 [x00]) in
      (Done (nth 0 (store [x00] out) x00, errno_error e1),
       World k2 (heap w ++ [store [x00] out]) (tr1 ++ [smbus_event c c0 [x00] e1 out]))
    else (Done (x00, Some (Errno e0)), World k1 (heap w) tr1).
Proof.
  unfold Conn.ReadReg. run_select_eq. rewrite value_txn_bind_run.
  cbn [kern heap trace]. cbv zeta.
  destruct (sys_ioctl _ _ _ _) as [[k2 e1] out].
  rewrite bind_run. unfold load, ret. cbn [heap]. rewrite deref_fresh.
  pose proof (length_store [x00] out) as Hl.
  destruct (store [x00] out) as [|b [|? ?]]; by try discriminate.
Qed.

Lemma ReadWord_run c addr reg w :
  Conn.ReadWord c addr reg w
  = let '(k1, e0, _) := sys_ioctl (kern w) (Fd (f c)) i2cSlave (ArgVal (int_of_byte addr)) in
    let tr1 := trace w ++ [select_event c addr e0] in
    if e0 =? 0 then
      let l := length (heap w) in
      let c0 := value_cmd i2cSMBusRead reg i2cSMBusWordData l in
      let mem := [x00; x00] in
      let '(k2, e1, out) := sys_ioctl k1 (Fd (f c)) i2cSMBus (ArgCmd c0 mem) in
      (Done (uint16_of_bytes (store mem out), errno_error e1),
       World k2 (heap w ++ [store mem out]) (tr1 ++ [smbus_event c c0 mem e1 out]))
    else (Done (0, Some (Errno e0)), World k1 (heap w) tr1).
Proof.
  unfold Conn.ReadWord. run_select_eq. rewrite value_txn_bind_run.
  cbn [kern heap trace]. cbv zeta.
  change (bytes_of_uint16 0) with [x00; x00].
  destruct (sys_ioctl _ _ _ _) as [[k2 e1] out].
  rewrite bind_run. unfold load, ret. cbn [heap]. rewrite deref_fresh.
  pose proof (length_store [x00; x00] out) as Hl.
  destruct (store [x00; x00] out) as [|b [|b' [|? ?]]]; by try discriminate.
Qed.

Lemma WriteReg_shape c addr reg (v : byte) w :
  call_shape c addr
    (fun q mem => q = value_cmd i2cSMBusWrite reg i2cSMBusByteData (length (heap w)) /\
                  mem = [v])
    (emitted w (snd (Conn.WriteReg c addr reg v w))).
Proof.
  destruct w as [k h tr]. rewrite WriteReg_run. cbn [kern heap trace].
  destruct (sys_ioctl _ _ _ _) as [[k1 e0] o0].
  destruct (Z.eqb_spec e0 0) as [->|Hne].
  - cbv zeta. destruct (sys_ioctl _ _ _ _) as [[k2 e1] out].
    cbn [snd]. rewrite <- !app_assoc, !emitted_app. by apply shape_issued.
  - cbn [snd]. rewrite !emitted_app. by apply shape_refused.
Qed.


Lemma ReadReg_done c addr reg w :
  exists v e, fst (Conn.ReadReg c addr reg w) = Done (v, e).
Proof.
  rewrite ReadReg_run. destruct (sys_ioctl _ _ _ _) as [[k1 e0] o0].
  destruct (e0 =? 0); [|by eexists _, _].
  cbv zeta. destruct (sys_ioctl _ _ _ _) as [[k2 e1] out]. by eexists _, _.
Qed.


(** X1.  A register operation never panics and reports every failure:
    it returns [errSMBusBlockDataMax] for a block buffer of more than 32
    bytes, and otherwise the error of the last ioctl it issued, [nil]
    exactly when that ioctl returned 0. *)
Theorem register_op_error c (op : regop) w :
  fst (run_op c op w)
  = Done (if op_too_long op then Some errSMBusBlockDataMax
          else last_error (emitted w (snd (run_op c op w)))).
Proof.
  destruct w as [k h tr].
  destruct op as [a r|a r v|a r|a r v|a r buf|a r buf];
    cbn [run_op op_too_long].
  - rewrite bind_run, ReadReg_run. cbn [kern heap trace].
    destruct (sys_ioctl _ _ _ _) as [[k1 e0] o0].
    destruct (Z.eqb_spec e0 0) as [->|Hne].
    + cbv zeta. destruct (sys_ioctl _ _ _ _) as [[k2 e1] out].
      cbn [ret fst snd]. by rewrite <- app_assoc, emitted_app.
    + cbn [ret fst snd]. rewrite emitted_app.
      unfold last_error, select_event, errno_error. cbn [last].
      by destruct (Z.eqb_spec e0 0).
  - rewrite WriteReg_run. cbn [kern heap trace].
    destruct (sys_ioctl _ _ _ _) as [[k1 e0] o0].
    destruct (Z.eqb_spec e0 0) as [->|Hne].
    + cbv zeta. destruct (sys_ioctl _ _ _ _) as [[k2 e1] out].
      cbn [fst snd]. by rewrite <- app_assoc, emitted_app.
    + cbn [fst snd]. rewrite emitted_app.
      unfold last_error, select_event, errno_error. cbn [last].
      by destruct (Z.eqb_spec e0 0).
  - rewrite bind_run, ReadWord_run. cbn [kern heap trace].
    destruct (sys_ioctl _ _ _ _) as [[k1 e0] o0].
    destruct (Z.eqb_spec e0 0) as [->|Hne].
    + cbv zeta. destruct (sys_ioctl _ _ _ _) as [[k2 e1] out].
      cbn [ret fst snd]. by rewrite <- app_assoc, emitted_app.
    + cbn [ret fst snd]. rewrite emitted_app.
      unfold last_error, select_event, errno_error. cbn [last].
      by destruct (Z.eqb_spec e0 0).
  - rewrite WriteWord_run. cbn [kern heap trace].
    destruct (sys_ioctl _ _ _ _) as [[k1 e0] o0].
    destruct (Z.eqb_spec e0 0) as [->|Hne].
    + cbv zeta. destruct (sys_ioctl _ _ _ _) as [[k2 e1] out].
      cbn [fst snd]. by rewrite <- app_assoc, emitted_app.
    + cbn [fst snd]. rewrite emitted_app.
      unfold last_error, select_event, errno_error. cbn [last].
      by destruct (Z.eqb_spec e0 0).
  - destruct (Z.gtb_spec (Z.of_nat (slen buf)) i2cSMBusBlockMax) as [Hn|Hn].
    + by rewrite ReadBlockData_too_long by (unfold i2cSMBusBlockMax in Hn; lia).
    + rewrite ReadBlockData_run by (unfold i2cSMBusBlockMax in Hn; lia).
      cbn [kern heap trace].
      destruct (sys_ioctl _ _ _ _) as [[k1 e0] o0].
      destruct (Z.eqb_spec e0 0) as [->|Hne].
      * cbv zeta. destruct (sys_ioctl _ _ _ _) as [[k2 e1] out].
        unfold last_error, smbus_event, errno_error.
        destruct (Z.eqb_spec e1 0) as [->|Hne];
          cbn [fst snd]; rewrite <- app_assoc, emitted_app; cbn [app last];
          [done | by destruct (Z.eqb_spec e1 0)].
      * cbn [fst snd]. rewrite emitted_app.
        unfold last_error, select_event, errno_error. cbn [last].
        by destruct (Z.eqb_spec e0 0).
  - destruct (Z.gtb_spec (Z.of_nat (slen buf)) i2cSMBusBlockMax) as [Hn|Hn].
    + by rewrite WriteBlockData_too_long by (unfold i2cSMBusBlockMax in Hn; lia).
    + rewrite WriteBlockData_run by (unfold i2cSMBusBlockMax in Hn; lia).
      cbn [kern heap trace].
      destruct (sys_ioctl _ _ _ _) as [[k1 e0] o0].
      destruct (Z.eqb_spec e0 0) as [->|Hne].
      * cbv zeta. destruct (sys_ioctl _ _ _ _) as [[k2 e1] out].
        cbn [fst snd]. by rewrite <- app_assoc, emitted_app.
      * cbn [fst snd]. rewrite emitted_app.
        unfold last_error, select_event, errno_error. cbn [last].
        by destruct (Z.eqb_spec e0 0).
Qed.

(** X2.  [WriteReg] hands the kernel a one-byte cell holding [v],
    [WriteWord] a two-byte cell holding [v] low byte first, both as a
    write on register [reg] with the size class of the operation. *)
Theorem write_value_wire c addr reg (v : byte) (vw : Z) w :
  0 <= vw < 65536 ->
  call_shape c addr
    (fun q mem => q = value_cmd i2cSMBusWrite reg i2cSMBusByteData (length (heap w)) /\
                  mem = [v])
    (emitted w (snd (Conn.WriteReg c addr reg v w))) /\
  call_shape c addr
    (fun q mem => q = value_cmd i2cSMBusWrite reg i2cSMBusWordData (length (heap w)) /\
                  mem = [byte_of_int (vw mod 256); byte_of_int (vw / 256)] /\
                  uint16_of_bytes mem = vw)
    (emitted w (snd (Conn.WriteWord c addr reg vw w))).
Proof.
  intros Hv. split; [apply WriteReg_shape|].
  destruct w as [k h tr]. rewrite WriteWord_run. cbn [kern heap trace].
  destruct (sys_ioctl _ _ _ _) as [[k1 e0] o0].
  destruct (Z.eqb_spec e0 0) as [->|Hne].
  - cbv zeta. destruct (sys_ioctl _ _ _ _) as [[k2 e1] out].
    cbn [snd]. rewrite <- !app_assoc, !emitted_app.
    apply shape_issued.
    split; [done|]. split; [|by apply uint16_of_bytes_of_uint16].
    unfold bytes_of_uint16, byte_of_int. by rewrite Z.mod_mod by lia.
  - cbn [snd]. rewrite !emitted_app. by apply shape_refused.
Qed.

(** X3.  [ReadReg] and [ReadWord] return the zero value and the error
    when the address select is refused.  Otherwise they hand the kernel a
    zeroed cell of one or two bytes and return what the kernel left in
    it, a word low byte first, together with the error of the
    transaction: also on failure the value is the content of the cell. *)
Theorem read_value c addr reg w :
  (exists e0, e0 <> 0 /\
     Conn.ReadReg c addr reg w
     = (Done (x00, Some (Errno e0)),
        World (kern (snd (Conn.ReadReg c addr reg w))) (heap w)
          (trace w ++ [select_event c addr e0])) /\
     Conn.ReadWord c addr reg w
     = (Done (0, Some (Errno e0)),
        World (kern (snd (Conn.ReadWord c addr reg w))) (heap w)
          (trace w ++ [select_event c addr e0])))
  \/
  (exists e1 e2 b lo hi,
     fst (Conn.ReadReg c addr reg w) = Done (b, errno_error e1) /\
     emitted w (snd (Conn.ReadReg c addr reg w))
     = [select_event c addr 0;
        EvIoctl (Fd (f c)) i2cSMBus
          (ArgCmd (value_cmd i2cSMBusRead reg i2cSMBusByteData (length (heap w))) [x00])
          e1 [b]] /\
     fst (Conn.ReadWord c addr reg w)
     = Done (int_of_byte lo + 256 * int_of_byte hi, errno_error e2) /\
     emitted w (snd (Conn.ReadWord c addr reg w))
     = [select_event c addr 0;
        EvIoctl (Fd (f c)) i2cSMBus
          (ArgCmd (value_cmd i2cSMBusRead reg i2cSMBusWordData (length (heap w))) [x00; x00])
          e2 [lo; hi]]).
Proof.
  destruct w as [k h tr].
  rewrite !ReadReg_run, !ReadWord_run. cbn [kern heap trace].
  destruct (sys_ioctl _ _ _ _) as [[k1 e0] o0].
  destruct (Z.eqb_spec e0 0) as [->|Hne].
  - right. cbv zeta.
    destruct (sys_ioctl k1 _ _ (ArgCmd _ [x00])) as [[k2 e1] out].
    destruct (sys_ioctl k1 _ _ (ArgCmd _ [x00; x00])) as [[k3 e2] out'].
    cbn [fst snd]. rewrite <- !app_assoc, !emitted_app. unfold smbus_event.
    pose proof (length_store [x00] out) as Hl.
    pose proof (length_store [x00; x00] out') as Hl'.
    destruct (store [x00] out) as [|b [|? ?]]; try discriminate.
    destruct (store [x00; x00] out') as [|lo [|hi [|? ?]]]; try discriminate.
    by exists e1, e2, b, lo, hi.
  - left. exists e0. by cbn [snd kern].
Qed.

(** X4.  [ReadBlockData] writes inside [buf] only: every allocation
    made before the call keeps its size, every allocation other than the
    one of [buf] keeps its bytes, and in the allocation of [buf] the
    bytes before [buf] and the bytes after it are unchanged. *)
Theorem ReadBlockData_frame c addr reg (buf : slice) w (l : nat) (blk : list byte) :
  wf_slice (heap w) buf ->
  heap w !! l = Some blk ->
  exists blk',
    heap (snd (Conn.ReadBlockData c addr reg buf w)) !! l = Some blk' /\
    length blk' = length blk /\
    (l <> base buf -> blk' = blk) /\
    take (off buf) blk' = take (off buf) blk /\
    drop (off buf + slen buf) blk' = drop (off buf + slen buf) blk.
Proof.
  intros (bb & Hbb & Hlen) Hl. destruct w as [k h tr]. cbn [heap] in *.
  assert (Hsame : forall h0 : list (list byte), h0 = h ->
            exists blk', h0 !! l = Some blk' /\ length blk' = length blk /\
              (l <> base buf -> blk' = blk) /\
              take (off buf) blk' = take (off buf) blk /\
              drop (off buf + slen buf) blk' = drop (off buf + slen buf) blk).
  { intros h0 ->. by exists blk. }
  destruct (Nat.le_gt_cases (slen buf) 32) as [Hn|Hn].
  2:{ rewrite ReadBlockData_too_long by done. by apply Hsame. }
  rewrite ReadBlockData_run by done. cbn [kern heap trace].
  destruct (sys_ioctl _ _ _ _) as [[k1 e0] o0].
  destruct (e0 =? 0); [|by apply Hsame].
  cbv zeta. destruct (sys_ioctl _ _ _ _) as [[k2 e1] out].
  set (wire := store (block_image (slen buf) []) out).
  assert (Hwire : length wire = 34%nat).
  { unfold wire. rewrite length_store. by apply length_block_image; simpl; lia. }
  destruct (e1 =? 0); cbn [snd heap].
  2:{ exists blk. by rewrite (lookup_app_l_Some _ _ _ _ Hl). }
  unfold poke. cbn [pbase poff].
  destruct (decide (l = base buf)) as [->|Hne].
  - rewrite list_lookup_alter_eq, (lookup_app_l_Some _ _ _ _ Hl).
    cbn [fmap option_fmap option_map].
    rewrite Hbb in Hl. injection Hl as <-.
    eexists. split; [reflexivity|].
    assert (Hst : length (store (drop (off buf) bb) (take (slen buf) (drop 1 wire)))
                  = (length bb - off buf)%nat)
      by (by rewrite length_store, length_drop).
    split; [rewrite length_app, length_take, Hst; lia|].
    split; [done|]. split.
    + rewrite take_app_le by (rewrite length_take; lia).
      rewrite take_take. f_equal. lia.
    + rewrite drop_app_ge by (rewrite length_take; lia).
      rewrite length_take. replace (off buf `min` length bb)%nat with (off buf) by lia.
      replace (off buf + slen buf - off buf)%nat with (slen buf) by lia.
      unfold store. rewrite length_drop, length_take, length_drop.
      replace (slen buf `min` (length wire - 1))%nat with (slen buf) by lia.
      rewrite take_ge by (rewrite length_app, length_take, !length_drop; lia).
      rewrite drop_app_length' by (rewrite length_take, length_drop; lia).
      by rewrite drop_drop.
  - rewrite list_lookup_alter_ne by done.
    exists blk. by rewrite (lookup_app_l_Some _ _ _ _ Hl).
Qed.
End ValueOps.

(** ** Round trips against the kernel that stores writes *)

Section EchoValues.
Implicit Types (k : echo_state) (w : world echo_state).

Lemma echo_value_write k (fd a : Z) (reg : byte) (size : Z) (l n : nat)
    (mem : list byte) :
  bound k !! fd = Some a -> payload_extent size mem = Some (0%nat, n) ->
  echo_ioctl k fd i2cSMBus (ArgCmd (value_cmd i2cSMBusWrite reg size l) mem)
  = (EchoState (devs k) (next_fd k) (bound k)
       (<[(a, int_of_byte reg) := take n mem]> (regs k)), 0, []).
Proof.
  intros Hb He. unfold echo_ioctl.
  change (negb (i2cSMBus =? i2cSMBus)) with false. cbv iota.
  rewrite Hb. unfold value_cmd. cbn [len rw cmd]. rewrite He.
  change (Byte.eqb i2cSMBusWrite i2cSMBusWrite) with true. cbv iota.
  by rewrite drop_0.
Qed.

Lemma echo_value_read k (fd a : Z) (reg : byte) (size : Z) (l n : nat)
    (mem p : list byte) :
  bound k !! fd = Some a -> payload_extent size mem = Some (0%nat, n) ->
  regs k !! (a, int_of_byte reg) = Some p ->
  echo_ioctl k fd i2cSMBus (ArgCmd (value_cmd i2cSMBusRead reg size l) mem)
  = (k, 0, take n p).
Proof.
  intros Hb He Hr. unfold echo_ioctl.
  change (negb (i2cSMBus =? i2cSMBus)) with false. cbv iota.
  rewrite Hb. unfold value_cmd. cbn [len rw cmd]. rewrite He.
  change (Byte.eqb i2cSMBusRead i2cSMBusWrite) with false. cbv iota.
  by rewrite Hr, take_0.
Qed.

(** X5.  Against the kernel that stores writes per (address, register),
    [WriteReg] followed by [ReadReg] of the same register returns the
    byte written, and a word written by [WriteWord] is read back
    unchanged by [ReadWord]. *)
Theorem value_round_trip (c : Conn) (addr reg : byte) (v : byte) (vw : Z) w :
  0 <= vw < 65536 ->
  (exists w1 w2,
     Conn.WriteReg c addr reg v w = (Done None, w1) /\
     Conn.ReadReg c addr reg w1 = (Done (v, None), w2)) /\
  (exists w1 w2,
     Conn.WriteWord c addr reg vw w = (Done None, w1) /\
     Conn.ReadWord c addr reg w1 = (Done (vw, None), w2)).
Proof.
  intros Hv. destruct w as [k h tr]. split.
  - rewrite WriteReg_run. cbn [heap trace kern sys_ioctl echo_kernel].
    rewrite echo_select. cbv iota beta zeta. change (0 =? 0) with true. cbv iota.
    rewrite (echo_value_write _ _ (int_of_byte addr) _ _ _ 1)
      by (cbn [bound]; first [apply lookup_insert_eq | done]).
    cbv iota beta. change (errno_error 0) with (@None error).
    cbn [devs next_fd bound regs].
    eexists _, _. split; [reflexivity|].
    rewrite ReadReg_run. cbn [heap trace kern sys_ioctl echo_kernel].
    rewrite echo_select. cbv iota beta zeta. change (0 =? 0) with true. cbv iota.
    cbn [devs next_fd bound regs].
    rewrite (echo_value_read _ _ (int_of_byte addr) _ _ _ 1 _ (take 1 [v]))
      by (cbn [bound regs]; first [apply lookup_insert_eq | done]).
    reflexivity.
  - rewrite WriteWord_run. cbn [heap trace kern sys_ioctl echo_kernel].
    rewrite echo_select. cbv iota beta zeta. change (0 =? 0) with true. cbv iota.
    rewrite (echo_value_write _ _ (int_of_byte addr) _ _ _ 2)
      by (cbn [bound]; first [apply lookup_insert_eq | done]).
    cbv iota beta. change (errno_error 0) with (@None error).
    cbn [devs next_fd bound regs].
    eexists _, _. split; [reflexivity|].
    rewrite ReadWord_run. cbn [heap trace kern sys_ioctl echo_kernel].
    rewrite echo_select. cbv iota beta zeta. change (0 =? 0) with true. cbv iota.
    cbn [devs next_fd bound regs].
    rewrite (echo_value_read _ _ (int_of_byte addr) _ _ _ 2 _
               (take 2 (bytes_of_uint16 vw)))
      by (cbn [bound regs]; first [apply lookup_insert_eq | done]).
    cbv iota beta. change (errno_error 0) with (@None error).
    change (store [x00; x00] (take 2 (take 2 (bytes_of_uint16 vw))))
      with (bytes_of_uint16 vw).
    by rewrite uint16_of_bytes_of_uint16.
Qed.
End EchoValues.

(** ** Selecting, opening and closing *)

Section Handles.
Context {K : Type} {HK : Kernel K}.
Implicit Types (c : Conn) (w : world K).

(** X6.  [SetAddr] issues one address select and nothing else, and
    returns its error.  An accepted select binds the descriptor of the
    connection to [addr]; a refused one leaves every binding as it was.
    Other descriptors are never rebound. *)
Theorem SetAddr_binds c (addr : byte) w :
  exists e0,
    fst (Conn.SetAddr c addr w) = Done (errno_error e0) /\
    emitted w (snd (Conn.SetAddr c addr w)) = [select_event c addr e0] /\
    heap (snd (Conn.SetAddr c addr w)) = heap w /\
    selected (trace (snd (Conn.SetAddr c addr w)))
    = if e0 =? 0 then <[Fd (f c) := int_of_byte addr]> (selected (trace w))
      else selected (trace w).
Proof.
  unfold Conn.SetAddr. rewrite addr_run.
  destruct (sys_ioctl _ _ _ _) as [[k1 e0] o0]. exists e0.
  destruct w as [k h tr]. cbn [fst snd heap trace]. rewrite emitted_app.
  repeat split. unfold selected. rewrite selected_from_app.
  unfold select_event. cbn [selected_from fold_left sel_step].
  change (i2cSlave =? i2cSlave) with true. cbn [andb].
  by destruct (e0 =? 0).
Qed.

(** X7.  [Close], on a handle that [OpenFile] just returned, issues one
    close of the descriptor of the connection and returns nil exactly
    when the kernel reports 0.  Whatever the
    kernel reports, the descriptor is no longer among the open ones nor
    bound to an address; so after [OpenFile] followed by [Close] the open
    descriptors are those from before the two calls, without the one
    that was handed out. *)
Theorem OpenFile_Close_releases (bus : Z) w c w1 :
  OpenFile bus w = (Done (Some c, None), w1) ->
  exists e,
    fst (Conn.Close c w1)
    = Done (if e =? 0 then None else Some (PathError "close" (dev_path bus) e)) /\
    emitted w (snd (Conn.Close c w1))
    = [EvOpen (dev_path bus) O_RDWR perm0600 (inl (Fd (f c))); EvClose (Fd (f c)) e] /\
    open_fds (trace (snd (Conn.Close c w1))) = open_fds (trace w) ∖ {[Fd (f c)]} /\
    selected (trace (snd (Conn.Close c w1))) !! Fd (f c) = None.
Proof.
  unfold OpenFile. rewrite bind_run. unfold os_OpenFile.
  destruct (sys_open _ _ _ _) as [k1 [fd|e]]; [|done].
  unfold ret. intros [= <- <-].
  unfold Conn.Close, os_Close. cbn [f Fd Name kern heap trace].
  destruct (sys_close k1 fd) as [k2 e]. exists e.
  destruct w as [k h tr]. cbn [fst snd trace].
  rewrite <- app_assoc, emitted_app. cbn [app].
  split; [done|]. split; [done|]. split.
  - rewrite open_fds_app. cbn [fold_left open_step].
    apply set_eq. intros x. set_unfold. tauto.
  - unfold selected. rewrite selected_from_app.
    cbn [selected_from fold_left sel_step]. apply lookup_delete_eq.
Qed.

(** X8.  Different bus numbers name different device files. *)
Theorem dev_path_inj (bus bus' : Z) : dev_path bus = dev_path bus' -> bus = bus'.
Proof.
  unfold dev_path. intros H.
  assert (Hs : NilZero.string_of_int (Z.to_int bus)
               = NilZero.string_of_int (Z.to_int bus')).
  { revert H. generalize (NilZero.string_of_int (Z.to_int bus)).
    generalize (NilZero.string_of_int (Z.to_int bus')).
    intros s s' H. simpl in H. by simplify_eq. }
  assert (Hnn : forall z, Z.to_int z <> Decimal.Pos Decimal.Nil /\
                          Z.to_int z <> Decimal.Neg Decimal.Nil).
  { intros [|p|p]; cbn; split; try discriminate;
      intros [= E]; by apply (Unsigned.to_uint_nonnil p). }
  apply DecimalZ.to_int_inj.
  assert (Hi : NilZero.int_of_string (NilZero.string_of_int (Z.to_int bus))
               = Some (Z.to_int bus)) by (apply NilZero.isi; apply Hnn).
  rewrite Hs, NilZero.isi in Hi by apply Hnn. by injection Hi.
Qed.
End Handles.

(** * Properties of the drivers *)

(** ** Checking a property of bytes on all of them *)

Lemma in_bytes256 (x : Z) : 0 <= x < 256 -> In x bytes256.
Proof.
  intros Hx. unfold bytes256. rewrite <- (Z2Nat.id x) by lia.
  apply in_map, in_seq. lia.
Qed.

Lemma forall_byte (P : Z -> bool) :
  forallb P bytes256 = true -> forall x, 0 <= x < 256 -> P x = true.
Proof.
  intros H x Hx. rewrite forallb_forall in H. by apply H, in_bytes256.
Qed.

Lemma forall_byte2 (P : Z -> Z -> bool) :
  forallb (fun x => forallb (P x) bytes256) bytes256 = true ->
  forall x y, 0 <= x < 256 -> 0 <= y < 256 -> P x y = true.
Proof.
  intros H x y Hx Hy.
  pose proof (forall_byte _ H x Hx) as Hrow. cbv beta in Hrow.
  by apply (forall_byte _ Hrow).
Qed.

Lemma lxor_byte (a b : Z) :
  0 <= a < 256 -> 0 <= b < 256 -> 0 <= Z.lxor a b < 256.
Proof.
  intros Ha Hb.
  assert (H : ((0 <=? Z.lxor a b) && (Z.lxor a b <? 256))%bool = true).
  { revert a b Ha Hb. apply forall_byte2. vm_compute. reflexivity. }
  lia.
Qed.


Lemma lxor_cancel_l (a b c : Z) : Z.lxor a b = Z.lxor a c -> b = c.
Proof.
  intros H.
  rewrite <- (Z.lxor_0_l b), <- (Z.lxor_0_l c), <- (Z.lxor_nilpotent a).
  by rewrite !Z.lxor_assoc, H.
Qed.

Lemma int_of_byte_inj (a b : byte) : int_of_byte a = int_of_byte b -> a = b.
Proof.
  intros H. by rewrite <- (byte_of_int_of_byte a), <- (byte_of_int_of_byte b), H.
Qed.

(** ** sht3x: the checksum *)

Lemma crc8_turn_byte (x : Z) :
  0 <= x < 256 -> 0 <= Nat.iter 8 sht3x.crc8_shift x < 256.
Proof.
  intros Hx.
  assert (H : ((0 <=? Nat.iter 8 sht3x.crc8_shift x)
               && (Nat.iter 8 sht3x.crc8_shift x <? 256))%bool = true).
  { revert x Hx. apply forall_byte. vm_compute. reflexivity. }
  lia.
Qed.

Lemma crc8_turn_inj (x y : Z) :
  0 <= x < 256 -> 0 <= y < 256 ->
  Nat.iter 8 sht3x.crc8_shift x = Nat.iter 8 sht3x.crc8_shift y -> x = y.
Proof.
  intros Hx Hy.
  assert (H : implb (Nat.iter 8 sht3x.crc8_shift x =? Nat.iter 8 sht3x.crc8_shift y)
                (x =? y) = true).
  { revert x y Hx Hy. apply forall_byte2. vm_compute. reflexivity. }
  intros E. rewrite E, Z.eqb_refl in H. cbn in H. lia.
Qed.

Lemma crc8_byte_range (crc : Z) (v : byte) :
  0 <= crc < 256 -> 0 <= sht3x.crc8_byte crc v < 256.
Proof.
  intros Hc. apply crc8_turn_byte, lxor_byte; [done | apply int_of_byte_bounds].
Qed.

Lemma crc8_byte_inj (a b : Z) (v : byte) :
  0 <= a < 256 -> 0 <= b < 256 ->
  sht3x.crc8_byte a v = sht3x.crc8_byte b v -> a = b.
Proof.
  intros Ha Hb E. unfold sht3x.crc8_byte in E.
  apply crc8_turn_inj in E;
    [|apply lxor_byte; [done | apply int_of_byte_bounds]..].
  rewrite (Z.lxor_comm a), (Z.lxor_comm b) in E. by apply lxor_cancel_l in E.
Qed.

Lemma crc8_byte_inj_r (a : Z) (v v' : byte) :
  0 <= a < 256 -> sht3x.crc8_byte a v = sht3x.crc8_byte a v' -> v = v'.
Proof.
  intros Ha E. unfold sht3x.crc8_byte in E.
  apply crc8_turn_inj in E;
    [|apply lxor_byte; [done | apply int_of_byte_bounds]..].
  by apply lxor_cancel_l, int_of_byte_inj in E.
Qed.

(** Folds of a step that keeps a range and is injective on it. *)
Section Folds.
Context {B : Type} (step : Z -> B -> Z) (P : Z -> Prop).
Hypothesis step_keeps : forall a v, P a -> P (step a v).
Hypothesis step_inj : forall a b v, P a -> P b -> step a v = step b v -> a = b.

Lemma fold_keeps (buf : list B) (a : Z) : P a -> P (fold_left step buf a).
Proof.
  revert a. induction buf as [|v buf IH]; intros a Ha; [done|].
  cbn [fold_left]. by apply IH, step_keeps.
Qed.

Lemma fold_inj (buf : list B) (a b : Z) :
  P a -> P b -> fold_left step buf a = fold_left step buf b -> a = b.
Proof.
  revert a b. induction buf as [|v buf IH]; intros a b Ha Hb; [done|].
  cbn [fold_left]. intros E.
  apply IH in E; [|by apply step_keeps..]. by apply step_inj in E.
Qed.

Lemma fold_snoc (buf : list B) (v : B) (a : Z) :
  fold_left step (buf ++ [v]) a = step (fold_left step buf a) v.
Proof. by rewrite fold_left_app. Qed.

Lemma fold_middle (pre suf : list B) (v : B) (a : Z) :
  fold_left step (pre ++ v :: suf) a
  = fold_left step suf (step (fold_left step pre a) v).
Proof. by rewrite fold_left_app. Qed.
End Folds.

Lemma crc8_fold_range (buf : list byte) (crc : Z) :
  0 <= crc < 256 -> 0 <= fold_left sht3x.crc8_byte buf crc < 256.
Proof.
  apply (fold_keeps sht3x.crc8_byte (fun x => 0 <= x < 256)).
  intros a v. apply crc8_byte_range.
Qed.

Lemma land_byte (x : Z) : 0 <= x < 256 -> Z.land x 0xFF = x.
Proof.
  intros Hx. change 0xFF with (Z.ones 8).
  rewrite Z.land_ones by lia. apply Z.mod_small. lia.
Qed.

Lemma crc8_fold (buf : list byte) :
  sht3x.crc8 buf = fold_left sht3x.crc8_byte buf 0xFF.
Proof. unfold sht3x.crc8. apply land_byte, crc8_fold_range. lia. Qed.

Lemma crc8_byte_self (s : Z) :
  0 <= s < 256 -> sht3x.crc8_byte s (byte_of_int s) = 0.
Proof.
  intros Hs. unfold sht3x.crc8_byte.
  rewrite int_of_byte_of_int by done. by rewrite Z.lxor_nilpotent.
Qed.

(** X9.  The checksum is a [uint8], and a buffer followed by its own
    checksum has checksum 0. *)
Theorem crc8_of_checked_buffer (buf : list byte) :
  0 <= sht3x.crc8 buf < 256 /\
  sht3x.crc8 (buf ++ [byte_of_int (sht3x.crc8 buf)]) = 0.
Proof.
  pose proof (crc8_fold_range buf 0xFF ltac:(lia)) as Hr.
  rewrite !crc8_fold. split; [done|].
  rewrite fold_snoc. by apply crc8_byte_self.
Qed.

(** X10.  The checksum tells apart two buffers that differ in one byte
    only, whatever precedes and follows that byte. *)
Theorem crc8_detects_byte_error (pre suf : list byte) (v v' : byte) :
  v <> v' ->
  sht3x.crc8 (pre ++ v :: suf) <> sht3x.crc8 (pre ++ v' :: suf).
Proof.
  intros Hv. rewrite !crc8_fold, !fold_middle.
  pose proof (crc8_fold_range pre 0xFF ltac:(lia)) as Hr.
  intros E.
  apply (fold_inj sht3x.crc8_byte (fun x => 0 <= x < 256)) in E.
  - by apply crc8_byte_inj_r in E.
  - intros a b. apply crc8_byte_range.
  - apply crc8_byte_inj.
  - by apply crc8_byte_range.
  - by apply crc8_byte_range.
Qed.

(** ** sht3x: commands and samples *)


Lemma shiftr8_land_uint16 (cmd : Z) :
  0 <= cmd < 65536 ->
  256 * int_of_byte (byte_of_int (Z.shiftr cmd 8))
  + int_of_byte (byte_of_int (Z.land cmd 0xFF)) = cmd.
Proof.
  intros Hc. rewrite !int_of_byte_of_int_mod.
  rewrite Z.shiftr_div_pow2 by lia. change 0xFF with (Z.ones 8).
  rewrite Z.land_ones by lia. change (2 ^ 8) with 256.
  rewrite Z.mod_mod by lia.
  rewrite (Z.mod_small (cmd / 256))
    by (split; [apply Z.div_pos | apply Z.div_lt_upper_bound]; lia).
  pose proof (Z.div_mod cmd 256 ltac:(lia)). lia.
Qed.

Section Sht3x.
Context {K : Type} {HK : Kernel K}.
Implicit Types (dev : sht3x.Device) (w : world K).

(** X11.  [writeCmd] sends a 16-bit command as one byte write to the
    device of the handle: the high byte of the command is the register,
    the low byte the value. *)
Theorem sht3x_writeCmd_splits dev (cmd : Z) w :
  0 <= cmd < 65536 ->
  call_shape (sht3x.conn dev) (sht3x.addr dev)
    (fun q mem => exists hi lo,
       q = value_cmd i2cSMBusWrite hi i2cSMBusByteData (length (heap w)) /\
       mem = [lo] /\ 256 * int_of_byte hi + int_of_byte lo = cmd)
    (emitted w (snd (sht3x.writeCmd dev cmd w))).
Proof.
  intros Hc. unfold sht3x.writeCmd.
  eapply call_shape_weaken; [|apply WriteReg_shape].
  intros q mem (-> & ->). eexists _, _. split; [done|]. split; [done|].
  by apply shiftr8_land_uint16.
Qed.

End Sht3x.

(** ** hts221 and at30tse75x: decoding registers *)

Lemma land_shiftl_low (a b : Z) (n : Z) :
  0 <= n -> 0 <= b < 2 ^ n -> Z.land (Z.shiftl a n) b = 0.
Proof.
  intros Hn Hb. apply Z.bits_inj_0. intros i.
  rewrite Z.land_spec.
  destruct (Z.lt_ge_cases i 0) as [Hi|Hi]; [by rewrite Z.testbit_neg_r|].
  destruct (Z.lt_ge_cases i n) as [Hin|Hin].
  - by rewrite Z.shiftl_spec_low.
  - rewrite <- (Z.mod_small b (2 ^ n)) by done.
    rewrite Z.mod_pow2_bits_high by lia. apply andb_false_r.
Qed.

(** Joining a high part and a low part of [n] bits. *)
Lemma lor_shiftl_add (a b : Z) (n : Z) :
  0 <= n -> 0 <= b < 2 ^ n -> Z.lor (Z.shiftl a n) b = a * 2 ^ n + b.
Proof.
  intros Hn Hb.
  pose proof (land_shiftl_low a b n Hn Hb) as H0.
  rewrite <- Z.lxor_lor by done.
  rewrite <- Z.add_nocarry_lxor by done.
  by rewrite Z.shiftl_mul_pow2.
Qed.

(** X13.  [convI16] reads the pair (low byte, high byte) as a 16-bit
    two's complement number: the value is within the [int16] range, it is
    negative exactly when the high byte is 128 or more, and it is
    [lsb + 256 * msb], less 65536 when negative. *)
Theorem hts221_convI16_twos_complement (lsb msb : byte) :
  -32768 <= hts221.convI16 lsb msb < 32768 /\
  hts221.convI16 lsb msb
  = int_of_byte lsb + 256 * int_of_byte msb
    - (if 128 <=? int_of_byte msb then 65536 else 0) /\
  (hts221.convI16 lsb msb < 0 <-> 128 <= int_of_byte msb).
Proof.
  pose proof (int_of_byte_bounds lsb) as Hl.
  pose proof (int_of_byte_bounds msb) as Hm.
  unfold hts221.convI16, LittleEndian_Uint16, int16_of_uint16.
  rewrite Z.lor_comm, lor_shiftl_add by (change (2 ^ 8) with 256; lia).
  change (2 ^ 8) with 256.
  rewrite Z.mod_small by lia.
  destruct (Z.ltb_spec (int_of_byte msb * 256 + int_of_byte lsb) 32768);
    destruct (Z.leb_spec 128 (int_of_byte msb)); lia.
Qed.

Lemma sign_test_false (raw : Z) : (Z.land raw 0x8000 =? 1) = false.
Proof.
  apply Z.eqb_neq. intros E.
  assert (Hb : Z.testbit (Z.land raw 0x8000) 0 = true) by by rewrite E.
  rewrite Z.land_spec in Hb. by rewrite andb_comm in Hb.
Qed.

(** X14.  [convTemp] never takes its sign branch: the test compares a
    number that is 0 or 0x8000 with 1.  So for every register value and
    each of the four resolutions the result is the register shifted
    right by 7, 6, 5 or 4 bits, as an unsigned number, times +1 times
    the step of the resolution; any other resolution panics, with a
    message that names it. *)
Theorem at30tse75x_convTemp_unsigned {F} {HF : Float64 F} (raw : Z) (res : byte) :
  at30tse75x.convTemp (F := F) raw res
  = if int_of_byte res <=? 3
    then Done (f_mul (f_mul (f_int (Z.shiftr raw (7 - int_of_byte res)))
                        (f_const 1 1))
                 (f_const 1 (2 ^ (int_of_byte res + 1))))
    else Panic (at30tse75x.invalid_resolution res).
Proof.
  unfold at30tse75x.convTemp. rewrite sign_test_false.
  destruct res; vm_compute (int_of_byte _ <=? 3); cbv iota;
    try reflexivity.
Qed.

(** ** Chains of register operations *)




Section DriverSteps.
Context {K : Type} {HK : Kernel K}.
Implicit Types (c : Conn) (a reg : byte) (w : world K).




End DriverSteps.







Section Adc101c.
Context {K : Type} {HK : Kernel K}.
Implicit Types (c : Conn) (a : byte) (w : world K).

End Adc101c.
Section Adc101cRead.
Context {K : Type} {HK : Kernel K}.
Implicit Types (dev : adc101c.Device) (w : world K).

End Adc101cRead.


Section Tsl2591.
Context {K : Type} {HK : Kernel K}.
Implicit Types (c : Conn) (a : byte) (w : world K).


End Tsl2591.
(** ** bme280: the raw readings *)




Section Bme280.
Context {K : Type} {HK : Kernel K}.
Implicit Types (dev : bme280.Device) (w : world K).






End Bme280.
(** ** at30tse75x *)



Section At30tse75x.
Context {K : Type} {HK : Kernel K}.
Implicit Types (c : Conn) (dev : at30tse75x.Device) (w : world K).


End At30tse75x.

(** ** The further properties at concrete inputs *)

Lemma write_value_wire_witness :
  0 <= 0xBEEF < 65536 /\
  call_shape conn3 x50
    (fun q mem =>
       q = value_cmd i2cSMBusWrite x01 i2cSMBusWordData (length (heap world0)) /\
       mem = [byte_of_int (0xBEEF mod 256); byte_of_int (0xBEEF / 256)] /\
       uint16_of_bytes mem = 0xBEEF)
    (emitted world0 (snd (Conn.WriteWord conn3 x50 x01 0xBEEF world0))).
Proof.
  assert (H : 0 <= 0xBEEF < 65536) by lia.
  split; [exact H|].
  exact (proj2 (write_value_wire conn3 x50 x01 xaa 0xBEEF world0 H)).
Defined.

Lemma ReadBlockData_frame_witness :
  wf_slice (heap world_written) buffer4 /\
  heap world_written !! 1%nat = Some [xff; xff; xff; xff; xff; xff] /\
  exists blk',
    heap (snd (Conn.ReadBlockData conn3 x50 x00 buffer4 world_written)) !! 1%nat
    = Some blk' /\
    length blk' = 6%nat /\
    take 1 blk' = [xff] /\ drop 5 blk' = [xff].
Proof.
  assert (Hl : heap world_written !! 1%nat = Some [xff; xff; xff; xff; xff; xff])
    by (vm_compute; reflexivity).
  split; [exact (wf_buffer4 _)|]. split; [exact Hl|].
  destruct (ReadBlockData_frame conn3 x50 x00 buffer4 world_written 1 _
              (wf_buffer4 _) Hl) as (blk' & H1 & H2 & _ & H3 & H4).
  exists blk'. split; [exact H1|]. split; [exact H2|]. split; [exact H3 | exact H4].
Defined.

Lemma value_round_trip_witness :
  0 <= 0xBEEF < 65536 /\
  (exists w1 w2,
     Conn.WriteReg conn3 x44 x20 x4b world0 = (Done None, w1) /\
     Conn.ReadReg conn3 x44 x20 w1 = (Done (x4b, None), w2)) /\
  (exists w1 w2,
     Conn.WriteWord conn3 x44 x20 0xBEEF world0 = (Done None, w1) /\
     Conn.ReadWord conn3 x44 x20 w1 = (Done (0xBEEF, None), w2)).
Proof.
  assert (H : 0 <= 0xBEEF < 65536) by lia.
  split; [exact H|].
  exact (value_round_trip conn3 x44 x20 x4b 0xBEEF world0 H).
Defined.

Lemma OpenFile_Close_releases_witness :
  OpenFile 1 (boot fresh_echo [])
  = (Done (Some conn3, None), snd (OpenFile 1 (boot fresh_echo []))) /\
  fst (Conn.Close conn3 (snd (OpenFile 1 (boot fresh_echo [])))) = Done None /\
  open_fds (trace (snd (Conn.Close conn3 (snd (OpenFile 1 (boot fresh_echo []))))))
  = ∅ ∖ {[3]}.
Proof.
  assert (Hrun : OpenFile 1 (boot fresh_echo [])
                 = (Done (Some conn3, None), snd (OpenFile 1 (boot fresh_echo []))))
    by (vm_compute; reflexivity).
  split; [exact Hrun|]. split; [vm_compute; reflexivity|].
  destruct (OpenFile_Close_releases 1 (boot fresh_echo []) conn3 _ Hrun)
    as (e & _ & _ & Hfds & _).
  exact Hfds.
Defined.

Lemma dev_path_inj_witness : dev_path 1 = dev_path 1 /\ 1 = 1.
Proof. split; [reflexivity|]. exact (dev_path_inj 1 1 eq_refl). Defined.

Lemma crc8_detects_byte_error_witness :
  xef <> x00 /\ sht3x.crc8 [xbe; xef] <> sht3x.crc8 [xbe; x00].
Proof.
  assert (H : xef <> x00) by discriminate.
  split; [exact H|].
  exact (crc8_detects_byte_error [xbe] [] xef x00 H).
Defined.

Lemma sht3x_writeCmd_splits_witness :
  0 <= sht3x._MEAS_HIGHREP < 65536 /\
  call_shape conn3 sht3x.I2CAddr
    (fun q mem => exists hi lo,
       q = value_cmd i2cSMBusWrite hi i2cSMBusByteData (length (heap world0)) /\
       mem = [lo] /\ 256 * int_of_byte hi + int_of_byte lo = sht3x._MEAS_HIGHREP)
    (emitted world0
       (snd (sht3x.writeCmd (sht3x.MkDevice conn3 sht3x.I2CAddr)
               sht3x._MEAS_HIGHREP world0))).
Proof.
  assert (H : 0 <= sht3x._MEAS_HIGHREP < 65536) by (unfold sht3x._MEAS_HIGHREP; lia).
  split; [exact H|].
  exact (sht3x_writeCmd_splits (sht3x.MkDevice conn3 sht3x.I2CAddr)
           sht3x._MEAS_HIGHREP world0 H).
Defined.

